(** * presence_guard.py and face_detect.py: a shallow embedding

    The two entry points of the repository are modelled as step functions
    over explicit state.  The black-box capabilities (camera, face
    detector, face encoder, lock commands, Bluetooth query) are inputs:
    one observation record per loop iteration gives the value each
    capability returns, or [Raise] when it raises an exception.  Every
    side effect the loop performs (log lines, capability calls, sleeps,
    lock attempts) becomes an event of the iteration's trace. *)

From Stdlib Require Import List String ZArith QArith Qminmax Bool Lia.
Import ListNotations.
Open Scope string_scope.
Open Scope list_scope.

(** ** Common vocabulary *)

(** The value returned by a capability call, or an exception it raised. *)
Inductive Result (A : Type) : Type :=
| Ok (a : A)
| Raise.
Arguments Ok {A} a.
Arguments Raise {A}.

(** Observable effects of one loop iteration, in order.  Log lines with
    f-string interpolation keep their template text. *)
Inductive Event : Type :=
| Log (msg : string)
| Encode          (* face_recognition.face_encodings on the live frame *)
| Distance        (* distance of the live encoding to the enrolled set *)
| LockCall        (* call of lock_session() *)
| Sleep (d : Q)   (* time.sleep(d) *)
| Release.        (* cap.release() *)

(** One iteration leaves the loop running with a new state, or an
    exception escaped the body of the [while True]. *)
Inductive Outcome (St : Type) : Type :=
| Next (s : St)
| Crashed.
Arguments Next {St} s.
Arguments Crashed {St}.

(** Python's [a % b] on ints: floor modulo, [ZeroDivisionError] at 0. *)
Definition py_mod (a b : Z) : Result Z :=
  if Z.eqb b 0 then Raise else Ok (Z.modulo a b).

(** [np.min] over a list of distances; raises on an empty array. *)
Definition np_min (ds : list Q) : Result Q :=
  match ds with
  | [] => Raise
  | d :: ds' => Ok (fold_left Qmin ds' d)
  end.

Fixpoint count_lock (evs : list Event) : nat :=
  match evs with
  | [] => 0
  | LockCall :: evs' => S (count_lock evs')
  | _ :: evs' => count_lock evs'
  end.

Fixpoint sleeps (evs : list Event) : list Q :=
  match evs with
  | [] => []
  | Sleep d :: evs' => d :: sleeps evs'
  | _ :: evs' => sleeps evs'
  end.

(** Every [LockCall] is immediately followed by [Sleep cd]. *)
Fixpoint lock_then_cooldown (cd : Q) (evs : list Event) : Prop :=
  match evs with
  | [] => True
  | LockCall :: evs' =>
      match evs' with
      | Sleep d :: _ => d = cd /\ lock_then_cooldown cd evs'
      | _ => False
      end
  | _ :: evs' => lock_then_cooldown cd evs'
  end.

(** What [subprocess.run(cmd, check=True, timeout=5)] does for one
    command: it completes with an exit status (non-zero raises
    [CalledProcessError]), the executable is missing
    ([FileNotFoundError]), it times out ([TimeoutExpired]), or another
    exception is raised. *)
Inductive CmdResult : Type :=
| Completed (rc : Z)
| NotFound
| TimedOut
| OtherError.

(** Effects of [lock_session()]: command executions and log lines. *)
Inductive LockEvent : Type :=
| Attempt (cmd : list string)
| LLog (msg : string).

Definition lock_cmds : list (list string) :=
  [["loginctl"; "lock-sessions"];
   ["gnome-screensaver-command"; "--lock"];
   ["xdg-screensaver"; "lock"];
   ["dm-tool"; "lock"]].

(** [' '.join(cmd)] *)
Definition join (cmd : list string) : string := String.concat " " cmd.

Fixpoint attempts (t : list LockEvent) : list (list string) :=
  match t with
  | [] => []
  | Attempt c :: t' => c :: attempts t'
  | LLog _ :: t' => attempts t'
  end.

Fixpoint lock_logs (t : list LockEvent) : list string :=
  match t with
  | [] => []
  | Attempt _ :: t' => lock_logs t'
  | LLog m :: t' => m :: lock_logs t'
  end.

(** ** presence_guard.py *)
Module PresenceGuard.

(** The CONFIG block ("tune as needed"). *)
Record Config := {
  ALLOWED_TOLERANCE : Q;
  CHECK_INTERVAL : Q;
  LOCK_COOLDOWN : Q;
  ABSENCE_TIMEOUT : Z;         (* seconds *)
  USE_BLUETOOTH : bool;
  VIDEO_DEVICE : option Z;     (* None = auto-detect 0..3 *)
  USE_CNN_FALLBACK : bool;
  ENCODING_EVERY_N : Z
}.

Definition config : Config := {|
  ALLOWED_TOLERANCE := 65 # 100;
  CHECK_INTERVAL := 35 # 100;
  LOCK_COOLDOWN := 4;
  ABSENCE_TIMEOUT := 6;
  USE_BLUETOOTH := false;
  VIDEO_DEVICE := None;
  USE_CNN_FALLBACK := true;
  ENCODING_EVERY_N := 1
|}.

Section Loop.
Context {Loc Enc : Type}.
(** [np.linalg.norm(k - e)]: Euclidean distance of two encodings. *)
Variable euclid : Enc -> Enc -> Q.

(** What the capabilities return during one iteration.  Timestamps
    ([datetime.now()]) are in microseconds. *)
Record Obs := {
  phone_present : bool;              (* is_phone_present(PHONE_MAC) *)
  frame_ok : bool;                   (* latest_frame(cap) is not None *)
  hog_locs : Result (list Loc);      (* face_locations(..., model="hog") *)
  cnn_locs : Result (list Loc);      (* face_locations(..., model="cnn") *)
  encs : Result (list Enc);          (* face_encodings(rgb, face_locations) *)
  now : Z                            (* datetime.now() *)
}.

Record State := {
  last_seen_someone : Z;
  frame_i : Z
}.

Definition init_state (t0 : Z) : State :=
  {| last_seen_someone := t0; frame_i := 0 |}.

Definition detect_faces_rgb (cfg : Config) (o : Obs) : Result (list Loc) :=
  match hog_locs o with
  | Raise => Raise
  | Ok locs =>
      match locs with
      | [] => if USE_CNN_FALLBACK cfg then cnn_locs o else Ok locs
      | _ => Ok locs
      end
  end.

(** [np.linalg.norm(known - encs[0], axis=1)] followed by [np.min]. *)
Definition best_distance (known : list Enc) (e : Enc) : Result Q :=
  np_min (map (fun k => euclid k e) known).

(** Lines 195-205: the sampled identity check.  Returns the events it
    produced and the verdict [authorized]. *)
Definition identity_check (cfg : Config) (known : list Enc) (s : State)
    (o : Obs) : Result (list Event * bool) :=
  match py_mod (frame_i s) (ENCODING_EVERY_N cfg) with
  | Raise => Raise
  | Ok r =>
      if Z.eqb r 0 then
        match encs o with
        | Raise => Raise
        | Ok [] =>
            Ok ([Encode; Log "Could not compute encoding on this frame; treating as unauthorized."], false)
        | Ok (e :: _) =>
            match best_distance known e with
            | Raise => Raise
            | Ok best =>
                Ok ([Encode; Distance; Log "Best face distance: {best:.3f}"],
                    Qle_bool best (ALLOWED_TOLERANCE cfg))
            end
        end
      else Ok ([], false)
  end.

(** One pass of the [while True] body of [main], lines 152-217.  The
    events emitted before an exception escapes are kept. *)
Definition step (cfg : Config) (known : list Enc) (s : State) (o : Obs)
    : list Event * Outcome State :=
  if USE_BLUETOOTH cfg && negb (phone_present o) then
    ([Log "Phone not present; locking for safety."; LockCall;
      Sleep (LOCK_COOLDOWN cfg)], Next s)
  else if negb (frame_ok o) then
    ([Log "Failed to read from webcam, retrying...";
      Sleep (CHECK_INTERVAL cfg)], Next s)
  else
    match detect_faces_rgb cfg o with
    | Raise => ([], Crashed)
    | Ok face_locations =>
        let n_faces := List.length face_locations in
        let ev0 := [Log "Detected {n_faces} face(s)"] in
        if negb (Nat.eqb n_faces 1) then
          if Nat.eqb n_faces 0 then
            if Z.leb (ABSENCE_TIMEOUT cfg * 1000000)
                     (now o - last_seen_someone s) then
              (ev0 ++ [Log "No faces for timeout -> locking"; LockCall;
                       Sleep (LOCK_COOLDOWN cfg); Sleep (CHECK_INTERVAL cfg)],
               Next s)
            else
              (ev0 ++ [Log "No face seen yet; waiting for timeout...";
                       Sleep (CHECK_INTERVAL cfg)], Next s)
          else
            (ev0 ++ [Log "Multiple faces detected -> locking"; LockCall;
                     Sleep (LOCK_COOLDOWN cfg); Sleep (CHECK_INTERVAL cfg)],
             Next s)
        else
          match identity_check cfg known s o with
          | Raise => (ev0, Crashed)
          | Ok (evs, authorized) =>
              if authorized then
                (ev0 ++ evs ++ [Log "Authorized face present — all good.";
                                Sleep (CHECK_INTERVAL cfg)],
                 Next {| last_seen_someone := now o;
                         frame_i := frame_i s + 1 |})
              else
                (ev0 ++ evs ++ [Log "Single face not authorized -> locking";
                                LockCall; Sleep (LOCK_COOLDOWN cfg);
                                Sleep (CHECK_INTERVAL cfg)],
                 Next {| last_seen_someone := last_seen_someone s;
                         frame_i := frame_i s + 1 |})
          end
    end.

(** The loop over a finite prefix of observations.  An escaped exception
    is caught by [except Exception], logged, and [finally] releases the
    camera; [main] then returns ([None]). *)
Fixpoint loop (cfg : Config) (known : list Enc) (s : State) (os : list Obs)
    : list Event * option State :=
  match os with
  | [] => ([], Some s)
  | o :: os' =>
      let (evs, out) := step cfg known s o in
      match out with
      | Crashed => (evs ++ [Log "presence_guard crashed: {e}"; Release], None)
      | Next s' =>
          let (evs', r) := loop cfg known s' os' in (evs ++ evs', r)
      end
  end.

End Loop.

(** Lines 60-68 of [lock_session]: any exception skips to the next
    command. *)
Fixpoint cascade (run : list string -> CmdResult) (cmds : list (list string))
    : list LockEvent * bool :=
  match cmds with
  | [] => ([LLog "All lock commands failed."], false)
  | cmd :: cmds' =>
      let skip := let (t, r) := cascade run cmds' in (Attempt cmd :: t, r) in
      match run cmd with
      | Completed rc =>
          if Z.eqb rc 0
          then ([Attempt cmd; LLog (String.append "Locked via: " (join cmd))], true)
          else skip
      | _ => skip
      end
  end.

Definition lock_session (run : list string -> CmdResult) : list LockEvent * bool :=
  cascade run lock_cmds.

(** Startup, lines 98-149. *)
Section Startup.
Context {Loc Enc : Type}.

(** One entry of [glob.glob(os.path.join(enroll_dir, "*"))] and what the
    capabilities return on it. *)
Record EnrollFile := {
  ef_path : string;
  ef_is_file : bool;                 (* os.path.isfile(p) *)
  ef_load_ok : bool;                 (* load_image_file does not raise *)
  ef_locs : Result (list Loc);       (* face_locations(img, ..., "hog") *)
  ef_encs : Result (list Enc)        (* face_encodings(img, locs) *)
}.

(** The body of the [for f in files] loop, lines 102-114. *)
Definition load_one (f : EnrollFile) : list Event * list Enc :=
  let err := ([Log (String.append "Error loading " (ef_path f))], []) in
  if negb (ef_load_ok f) then err else
  match ef_locs f with
  | Raise => err
  | Ok [] => ([Log (String.append "No face found in enroll image: " (ef_path f))], [])
  | Ok _ =>
      match ef_encs f with
      | Raise => err
      | Ok [] => ([], [])
      | Ok (e :: _) =>
          ([Log (String.append "Loaded enrollment face from " (ef_path f))], [e])
      end
  end.

Fixpoint load_files (fs : list EnrollFile) : list Event * list Enc :=
  match fs with
  | [] => ([], [])
  | f :: fs' =>
      let (l1, e1) := load_one f in
      let (l2, e2) := load_files fs' in (l1 ++ l2, e1 ++ e2)
  end.

(** [np.array(encodings) if encodings else None] *)
Definition load_known_encodings (entries : list EnrollFile)
    : list Event * option (list Enc) :=
  let (l, encodings) := load_files (filter ef_is_file entries) in
  (l, match encodings with [] => None | _ => Some encodings end).

(** [open_camera]: the first index whose capture [isOpened()]. *)
Definition open_camera (cfg : Config) (opens : Z -> bool) : option Z :=
  let indices := match VIDEO_DEVICE cfg with Some i => [i] | None => [0; 1; 2; 3]%Z end in
  find opens indices.

Inductive Start : Type :=
| Exit (code : Z)                    (* sys.exit(code) *)
| EnterLoop (known : list Enc) (cam_idx : Z).

(** [main] up to the [while True] loop. *)
Definition startup (cfg : Config) (dir_exists : bool)
    (entries : list EnrollFile) (opens : Z -> bool) : list Event * Start :=
  if negb dir_exists then
    ([Log "Enrollment dir {ENROLL_DIR} not found. Create it and add photos of your face."], Exit 1)
  else
    let (l, known) := load_known_encodings entries in
    match known with
    | None | Some [] => (l ++ [Log "No known face encodings loaded. Exiting."], Exit 1)
    | Some k =>
        match open_camera cfg opens with
        | None => (l ++ [Log "Cannot open webcam (/dev/video0..3). Exiting."], Exit 1)
        | Some idx =>
            (l ++ [Log "Opened camera /dev/video{cam_idx} at {FRAME_WIDTH}x{FRAME_HEIGHT}";
                   Log "Starting presence_guard"], EnterLoop k idx)
        end
    end.

End Startup.
End PresenceGuard.

(** ** face_detect.py *)
Module FaceDetect.

Record Config := {
  ALLOWED_TOLERANCE : Q;
  CHECK_INTERVAL : Q;
  LOCK_COOLDOWN : Q
}.

Definition config : Config := {|
  ALLOWED_TOLERANCE := 45 # 100;
  CHECK_INTERVAL := 2;
  LOCK_COOLDOWN := 5
|}.

Section Loop.
Context {Loc Enc : Type}.
Variable euclid : Enc -> Enc -> Q.

Record Obs := {
  frame_ok : bool;                   (* ret of cap.read() *)
  locs : Result (list Loc);          (* face_locations(rgb_frame, model="hog") *)
  encs : Result (list Enc);          (* face_encodings(rgb_frame, face_locations) *)
  now : Z                            (* datetime.now() after a lock *)
}.

Record State := { last_lock_time : option Z }.

Definition init_state : State := {| last_lock_time := None |}.

(** [face_recognition.face_distance] followed by [np.min]. *)
Definition best_distance (known : list Enc) (e : Enc) : Result Q :=
  np_min (map (fun k => euclid k e) known).

(** One pass of the [while True] body, lines 99-139. *)
Definition step (cfg : Config) (known : list Enc) (s : State) (o : Obs)
    : list Event * Outcome State :=
  if negb (frame_ok o) then
    ([Log "Failed to read from webcam, retrying..."; Sleep (CHECK_INTERVAL cfg)], Next s)
  else
    match locs o with
    | Raise => ([], Crashed)
    | Ok face_locations =>
        match encs o with
        | Raise => ([Encode], Crashed)
        | Ok face_encodings =>
            let n_faces := List.length face_encodings in
            let ev0 := [Encode; Log "Detected {n_faces} face(s)"] in
            let locked := Next {| last_lock_time := Some (now o) |} in
            if negb (Nat.eqb n_faces 1) then
              (ev0 ++ [Log "Condition failed: not exactly one person present -> locking";
                       LockCall; Sleep (LOCK_COOLDOWN cfg)], locked)
            else
              match face_encodings with
              | [] => (ev0, Crashed)         (* unreachable: n_faces = 1 *)
              | e :: _ =>
                  match best_distance known e with
                  | Raise => (ev0 ++ [Distance], Crashed)
                  | Ok best =>
                      let ev1 := ev0 ++ [Distance; Log "Best face distance: {best:.3f}"] in
                      if Qle_bool best (ALLOWED_TOLERANCE cfg) then
                        (ev1 ++ [Log "Authorized face detected and only person present — all good.";
                                 Sleep (CHECK_INTERVAL cfg)], Next s)
                      else
                        (ev1 ++ [Log "Unknown face detected (not authorized) -> locking";
                                 LockCall; Sleep (LOCK_COOLDOWN cfg)], locked)
                  end
              end
        end
    end.

Fixpoint loop (cfg : Config) (known : list Enc) (s : State) (os : list Obs)
    : list Event * option State :=
  match os with
  | [] => ([], Some s)
  | o :: os' =>
      let (evs, out) := step cfg known s o in
      match out with
      | Crashed => (evs ++ [Log "presence_guard crashed: {e}"; Release], None)
      | Next s' =>
          let (evs', r) := loop cfg known s' os' in (evs ++ evs', r)
      end
  end.

End Loop.

(** [lock_session], lines 63-75: a missing executable or a non-zero exit
    status skips silently; any other exception is logged, then skipped. *)
Fixpoint cascade (run : list string -> CmdResult) (cmds : list (list string))
    : list LockEvent * bool :=
  match cmds with
  | [] => ([LLog "All lock commands failed."], false)
  | cmd :: cmds' =>
      let skip := let (t, r) := cascade run cmds' in (Attempt cmd :: t, r) in
      let logged_skip :=
        let (t, r) := cascade run cmds' in
        (Attempt cmd :: LLog (String.append "Lock attempt error for " (join cmd)) :: t, r) in
      match run cmd with
      | Completed rc =>
          if Z.eqb rc 0
          then ([Attempt cmd; LLog (String.append "Locked via: " (join cmd))], true)
          else skip
      | NotFound => skip
      | TimedOut | OtherError => logged_skip
      end
  end.

Definition lock_session (run : list string -> CmdResult) : list LockEvent * bool :=
  cascade run lock_cmds.

End FaceDetect.

(** ** presence_guard.py: the Bluetooth second factor *)
Module Bluetooth.




End Bluetooth.

(** ** face_detect.py: startup *)
Module FaceDetectStartup.
Import PresenceGuard.

Definition VIDEO_DEVICE : Z := 0.

Section Startup.
Context {Loc Enc : Type}.

(** The body of the [for f in files] loop, lines 41-52: no [isfile]
    filter, and [face_encodings(...)[0]] raises [IndexError] on an
    empty list, which the [except] logs. *)
Definition load_one (f : @EnrollFile Loc Enc) : list Event * list Enc :=
  let err := ([Log (String.append "Error loading " (ef_path f))], []) in
  if negb (ef_load_ok f) then err else
  match ef_locs f with
  | Raise => err
  | Ok [] => ([Log (String.append "No face found in enroll image: " (ef_path f))], [])
  | Ok _ =>
      match ef_encs f with
      | Raise | Ok [] => err
      | Ok (e :: _) =>
          ([Log (String.append "Loaded enrollment face from " (ef_path f))], [e])
      end
  end.

Fixpoint load_known_encodings (fs : list EnrollFile) : list Event * list Enc :=
  match fs with
  | [] => ([], [])
  | f :: fs' =>
      let (l1, e1) := load_one f in
      let (l2, e2) := load_known_encodings fs' in (l1 ++ l2, e1 ++ e2)
  end.

(** [main] up to the [while True] loop, lines 78-96; [opens] is
    [cv2.VideoCapture(idx).isOpened()]. *)
Definition startup (dir_exists : bool) (entries : list EnrollFile)
    (opens : Z -> bool) : list Event * Start :=
  if negb dir_exists then
    ([Log "Enrollment dir {ENROLL_DIR} not found. Create it and add photos of your face."], Exit 1)
  else
    let (l, known_encodings) := load_known_encodings entries in
    match known_encodings with
    | [] => (l ++ [Log "No known face encodings loaded. Exiting."], Exit 1)
    | _ =>
        if opens VIDEO_DEVICE then
          (l ++ [Log "Starting presence_guard"], EnterLoop known_encodings VIDEO_DEVICE)
        else
          (l ++ [Log "Starting presence_guard"; Log "Cannot open webcam. Exiting."], Exit 1)
    end.

End Startup.
End FaceDetectStartup.

(** * Properties *)

(** ** Minimum of the distances *)

Lemma fold_Qmin_le_acc (ds : list Q) (a : Q) : fold_left Qmin ds a <= a.
Proof.
  revert a; induction ds as [|d ds IH]; intros a; simpl.
  - apply Qle_refl.
  - eapply Qle_trans; [apply IH | apply Q.le_min_l].
Qed.

Lemma fold_Qmin_le_mem (ds : list Q) (a d : Q) :
  In d ds -> fold_left Qmin ds a <= d.
Proof.
  revert a; induction ds as [|d' ds IH]; intros a Hin; simpl in *.
  - contradiction.
  - destruct Hin as [<- | Hin].
    + eapply Qle_trans; [apply fold_Qmin_le_acc | apply Q.le_min_r].
    + apply IH, Hin.
Qed.

Lemma fold_Qmin_glb_lt (ds : list Q) (a x : Q) :
  x < a -> (forall d, In d ds -> x < d) -> x < fold_left Qmin ds a.
Proof.
  revert a; induction ds as [|d ds IH]; intros a Ha Hall; simpl.
  - exact Ha.
  - apply IH.
    + apply Q.min_glb_lt; [exact Ha | apply Hall; left; reflexivity].
    + intros d' Hd'; apply Hall; right; exact Hd'.
Qed.

(** [np_min] is the minimum: at most every element ... *)
Lemma np_min_le (ds : list Q) (d : Q) :
  In d ds -> exists m, np_min ds = Ok m /\ m <= d.
Proof.
  destruct ds as [|d0 ds]; intros Hin; [contradiction|].
  exists (fold_left Qmin ds d0); split; [reflexivity|].
  destruct Hin as [<- | Hin].
  - apply fold_Qmin_le_acc.
  - apply fold_Qmin_le_mem, Hin.
Qed.

(** ... and above every common strict lower bound. *)
Lemma np_min_gt (ds : list Q) (x : Q) :
  ds <> [] -> (forall d, In d ds -> x < d) -> exists m, np_min ds = Ok m /\ x < m.
Proof.
  destruct ds as [|d0 ds]; intros Hne Hall; [congruence|].
  exists (fold_left Qmin ds d0); split; [reflexivity|].
  apply fold_Qmin_glb_lt.
  - apply Hall; left; reflexivity.
  - intros d Hd; apply Hall; right; exact Hd.
Qed.

Lemma Qle_bool_false_of_lt (x y : Q) : y < x -> Qle_bool x y = false.
Proof.
  intros H; destruct (Qle_bool x y) eqn:E; [|reflexivity].
  apply Qle_bool_iff in E; exfalso; apply (Qlt_not_le _ _ H E).
Qed.

(** ** Trace lemmas *)

Lemma lock_then_cooldown_app (cd : Q) (l1 l2 : list Event) :
  lock_then_cooldown cd l1 -> lock_then_cooldown cd l2 ->
  lock_then_cooldown cd (l1 ++ l2).
Proof.
  induction l1 as [|e l1 IH]; intros H1 H2; simpl in *; [exact H2|].
  destruct e; try (apply IH; assumption).
  destruct l1 as [|e' l1]; [contradiction|].
  destruct e'; try contradiction.
  destruct H1 as [Hd H1]; split; [exact Hd|].
  apply IH; assumption.
Qed.

Lemma count_lock_app (l1 l2 : list Event) :
  count_lock (l1 ++ l2) = (count_lock l1 + count_lock l2)%nat.
Proof.
  induction l1 as [|e l1 IH]; simpl; [reflexivity|].
  destruct e; simpl; rewrite ?IH; reflexivity.
Qed.

(** ** presence_guard.py: the decision loop *)
Module PresenceGuardFacts.
Import PresenceGuard.

Section Facts.
Context {Loc Enc : Type}.
Variable euclid : Enc -> Enc -> Q.

(** The iteration passed the Bluetooth gate, read a frame, and the
    detector returned [locs]. *)
Definition observed (cfg : Config) (o : @Obs Loc Enc) (locs : list Loc) : Prop :=
  (USE_BLUETOOTH cfg && negb (phone_present o)) = false /\
  frame_ok o = true /\
  detect_faces_rgb cfg o = Ok locs.

(** The iteration is one in which exactly one face was detected. *)
Definition single_face (cfg : Config) (o : @Obs Loc Enc) : bool :=
  negb (USE_BLUETOOTH cfg && negb (phone_present o)) && frame_ok o &&
  match detect_faces_rgb cfg o with Ok [_] => true | _ => false end.

Ltac enter_branch H :=
  destruct H as (Hg & Hf & Hd);
  unfold step; rewrite Hg, Hf, Hd; simpl.

Ltac split_matches :=
  repeat match goal with
         | |- context [match ?x with _ => _ end] => destruct x eqn:?
         | |- context [if ?x then _ else _] => destruct x eqn:?
         end.

(** The identity check emits no lock and no sleep. *)
Lemma identity_check_events (cfg : Config) (known : list Enc) (s : State)
    (o : @Obs Loc Enc) (evs : list Event) (b : bool) :
  identity_check euclid cfg known s o = Ok (evs, b) ->
  evs = [] \/ (exists m, evs = [Encode; Log m]) \/
  (exists m, evs = [Encode; Distance; Log m]).
Proof.
  unfold identity_check; split_matches; intros E; inversion E; subst;
    eauto.
Qed.

Lemma step_lock_then_cooldown (cfg : Config) (known : list Enc) (s : State)
    (o : @Obs Loc Enc) :
  lock_then_cooldown (LOCK_COOLDOWN cfg) (fst (step euclid cfg known s o)).
Proof.
  unfold step; split_matches; simpl; auto;
    match goal with
    | H : identity_check _ _ _ _ _ = Ok (_, _) |- _ =>
        apply identity_check_events in H;
        destruct H as [-> | [[m ->] | [m ->]]]; simpl; auto
    end.
Qed.

Lemma step_no_lock_sleeps (cfg : Config) (known : list Enc) (s : State)
    (o : @Obs Loc Enc) (evs : list Event) (s' : State) :
  step euclid cfg known s o = (evs, Next s') ->
  count_lock evs = 0%nat ->
  sleeps evs = [CHECK_INTERVAL cfg].
Proof.
  unfold step; split_matches; simpl; intros E; inversion E; subst; clear E;
    try (match goal with
         | H : identity_check _ _ _ _ _ = Ok (_, _) |- _ =>
             apply identity_check_events in H;
             destruct H as [-> | [[m ->] | [m ->]]]
         end);
    simpl; intros; try discriminate; reflexivity.
Qed.

Lemma loop_lock_then_cooldown (cfg : Config) (known : list Enc) (s : State)
    (os : list (@Obs Loc Enc)) :
  lock_then_cooldown (LOCK_COOLDOWN cfg) (fst (loop euclid cfg known s os)).
Proof.
  revert s; induction os as [|o os IH]; intros s; simpl; [exact I|].
  pose proof (step_lock_then_cooldown cfg known s o) as Hs.
  destruct (step euclid cfg known s o) as [evs out]; simpl in Hs.
  destruct out as [s'|].
  - specialize (IH s'); destruct (loop euclid cfg known s' os) as [evs' r].
    simpl in *; apply lock_then_cooldown_app; assumption.
  - simpl; apply lock_then_cooldown_app; simpl; auto.
Qed.

(** C1: with exactly one face, a skipped check, a missing encoding or a
    best distance above the tolerance each lock in the same iteration;
    the conclusion holds for every prior state, so no earlier verdict is
    carried over. *)
Theorem single_face_not_authorized_locks (cfg : Config) (known : list Enc)
    (s : State) (o : @Obs Loc Enc) (l : Loc) :
  observed cfg o [l] ->
  ENCODING_EVERY_N cfg <> 0%Z ->
  (Z.modulo (frame_i s) (ENCODING_EVERY_N cfg) <> 0%Z
   \/ encs o = Ok []
   \/ (exists e rest, encs o = Ok (e :: rest) /\ known <> [] /\
         forall k, In k known -> ALLOWED_TOLERANCE cfg < euclid k e)) ->
  exists evs,
    step euclid cfg known s o =
      (evs, Next {| last_seen_someone := last_seen_someone s;
                    frame_i := frame_i s + 1 |}) /\
    count_lock evs = 1%nat /\
    lock_then_cooldown (LOCK_COOLDOWN cfg) evs.
Proof.
  intros Hobs HN Hcase.
  enter_branch Hobs.
  unfold identity_check, py_mod in *.
  rewrite (proj2 (Z.eqb_neq _ _) HN) in *.
  destruct (Z.eqb_spec (Z.modulo (frame_i s) (ENCODING_EVERY_N cfg)) 0) as [Hm|Hm].
  - destruct Hcase as [Hc | [He | (e & rest & He & Hne & Hgt)]].
    + contradiction.
    + rewrite He in *; simpl in *.
      eexists; split; [reflexivity|]; split; [reflexivity|simpl; auto].
    + rewrite He in *.
      unfold best_distance in *.
      destruct (np_min_gt (map (fun k => euclid k e) known) (ALLOWED_TOLERANCE cfg))
        as (m & Hmin & Hlt).
      { destruct known; [congruence | discriminate]. }
      { intros d Hdm; apply in_map_iff in Hdm; destruct Hdm as (k & <- & Hk).
        apply Hgt, Hk. }
      rewrite Hmin, (Qle_bool_false_of_lt _ _ Hlt) in *; simpl in *.
      eexists; split; [reflexivity|]; split; [reflexivity|simpl; auto].
  - simpl in *.
    eexists; split; [reflexivity|]; split; [reflexivity|simpl; auto].
Qed.

(** C5: with exactly one face, a check that runs and a minimum distance
    within the tolerance, no lock is attempted and [last_seen_someone]
    becomes the iteration's timestamp. *)
Theorem single_face_authorized_no_lock (cfg : Config) (known : list Enc)
    (s : State) (o : @Obs Loc Enc) (l : Loc) (e : Enc) (rest : list Enc) :
  observed cfg o [l] ->
  ENCODING_EVERY_N cfg <> 0%Z ->
  Z.modulo (frame_i s) (ENCODING_EVERY_N cfg) = 0%Z ->
  encs o = Ok (e :: rest) ->
  (exists k, In k known /\ euclid k e <= ALLOWED_TOLERANCE cfg) ->
  exists evs,
    step euclid cfg known s o =
      (evs, Next {| last_seen_someone := now o; frame_i := frame_i s + 1 |}) /\
    count_lock evs = 0%nat.
Proof.
  intros Hobs HN Hm He (k & Hk & Hle).
  enter_branch Hobs.
  unfold identity_check, py_mod.
  rewrite (proj2 (Z.eqb_neq _ _) HN), Hm, He; simpl.
  unfold best_distance.
  destruct (np_min_le (map (fun k => euclid k e) known) (euclid k e))
    as (m & Hmin & Hmle).
  { apply (in_map (fun k0 => euclid k0 e)), Hk. }
  rewrite Hmin.
  assert (Hb : Qle_bool m (ALLOWED_TOLERANCE cfg) = true).
  { apply Qle_bool_iff; eapply Qle_trans; eassumption. }
  rewrite Hb; simpl.
  eexists; split; reflexivity.
Qed.

Lemma zero_faces_past_timeout_step (cfg : Config) (known : list Enc)
    (s : State) (o : @Obs Loc Enc) :
  observed cfg o [] ->
  (ABSENCE_TIMEOUT cfg * 1000000 <= now o - last_seen_someone s)%Z ->
  step euclid cfg known s o =
    ([Log "Detected {n_faces} face(s)"; Log "No faces for timeout -> locking";
      LockCall; Sleep (LOCK_COOLDOWN cfg); Sleep (CHECK_INTERVAL cfg)], Next s).
Proof.
  intros Hobs Ht; enter_branch Hobs.
  apply Z.leb_le in Ht; rewrite Ht; reflexivity.
Qed.

(** Only an authorized single-face iteration, which does not lock,
    moves [last_seen_someone]. *)
Lemma step_last_seen (cfg : Config) (known : list Enc) (s : State)
    (o : @Obs Loc Enc) (evs : list Event) (s' : State) :
  step euclid cfg known s o = (evs, Next s') ->
  last_seen_someone s' = last_seen_someone s \/
  (last_seen_someone s' = now o /\ count_lock evs = 0%nat /\
   exists l, detect_faces_rgb cfg o = Ok [l]).
Proof.
  unfold step; split_matches; intros E; inversion E; subst; clear E;
    simpl; auto.
  right; split; [reflexivity|]; split.
  - match goal with
    | H : identity_check _ _ _ _ _ = Ok (_, _) |- _ =>
        apply identity_check_events in H;
        destruct H as [-> | [[m ->] | [m ->]]]; reflexivity
    end.
  -  match goal with
    | H : negb (Nat.eqb (List.length ?a) 1) = false |- _ =>
        destruct a as [|x [|x' a]]; simpl in H; try discriminate; exists x; reflexivity
    end.
Qed.

(** C2: with zero faces a lock is attempted exactly when the time since
    [last_seen_someone] reaches [ABSENCE_TIMEOUT]; the state is left
    unchanged, so every later zero-face iteration past the timeout locks
    again; only an authorized single-face iteration moves
    [last_seen_someone]. *)
Theorem zero_faces_absence_timeout (cfg : Config) (known : list Enc) :
  (forall (s : State) (o : @Obs Loc Enc),
     observed cfg o [] ->
     snd (step euclid cfg known s o) = Next s /\
     (In LockCall (fst (step euclid cfg known s o)) <->
      (ABSENCE_TIMEOUT cfg * 1000000 <= now o - last_seen_someone s)%Z)) /\
  (forall (s : State) (os : list (@Obs Loc Enc)),
     (forall o, In o os -> observed cfg o [] /\
        (ABSENCE_TIMEOUT cfg * 1000000 <= now o - last_seen_someone s)%Z) ->
     exists evs, loop euclid cfg known s os = (evs, Some s) /\
                 count_lock evs = List.length os) /\
  (forall (s : State) (o : @Obs Loc Enc) evs s',
     step euclid cfg known s o = (evs, Next s') ->
     last_seen_someone s' = last_seen_someone s \/
     (last_seen_someone s' = now o /\ count_lock evs = 0%nat /\
      exists l, detect_faces_rgb cfg o = Ok [l])).
Proof.
  split; [|split].
  - intros s o Hobs; enter_branch Hobs.
    destruct (Z.leb_spec (ABSENCE_TIMEOUT cfg * 1000000) (now o - last_seen_someone s))
      as [Ht|Ht]; simpl; (split; [reflexivity|]).
    + split; [intros _; exact Ht | intros _; auto 6].
    + split; [|lia].
      intros H; repeat (destruct H as [H|H]; [discriminate|]); contradiction.
  - intros s os; induction os as [|o os IH]; intros Hall.
    + exists []; split; reflexivity.
    + destruct (Hall o (or_introl eq_refl)) as [Hobs Ht].
      destruct IH as (evs & Hl & Hc).
      { intros o' Ho'; apply Hall; right; exact Ho'. }
      simpl; rewrite (zero_faces_past_timeout_step cfg known s o Hobs Ht), Hl.
      eexists; split; [reflexivity|].
      rewrite count_lock_app, Hc; reflexivity.
  - intros s o evs s'; apply step_last_seen.
Qed.

Lemma step_frame_i (cfg : Config) (known : list Enc) (s : State)
    (o : @Obs Loc Enc) (evs : list Event) (s' : State) :
  step euclid cfg known s o = (evs, Next s') ->
  frame_i s' = (frame_i s + if single_face cfg o then 1 else 0)%Z.
Proof.
  unfold step, single_face.
  destruct (USE_BLUETOOTH cfg && negb (phone_present o)) eqn:Hg; simpl.
  { intros E; inversion E; subst; lia. }
  destruct (frame_ok o) eqn:Hf; simpl.
  2: { intros E; inversion E; subst; lia. }
  destruct (detect_faces_rgb cfg o) as [locs|]; [|intros E; discriminate].
  destruct locs as [|x [|x' locs]]; simpl.
  - destruct Z.leb; intros E; inversion E; subst; lia.
  - destruct (identity_check euclid cfg known s o) as [[evs0 b]|];
      [|intros E; discriminate].
    destruct b; intros E; inversion E; subst; simpl; lia.
  - intros E; inversion E; subst; lia.
Qed.

Lemma loop_frame_i (cfg : Config) (known : list Enc) (s : State)
    (os : list (@Obs Loc Enc)) (evs : list Event) (s' : State) :
  loop euclid cfg known s os = (evs, Some s') ->
  frame_i s' = (frame_i s + Z.of_nat (List.length (filter (single_face cfg) os)))%Z.
Proof.
  revert s evs; induction os as [|o os IH]; intros s evs; simpl.
  - intros E; inversion E; subst; lia.
  - destruct (step euclid cfg known s o) as [ev out] eqn:Es.
    destruct out as [s1|]; [|intros E; inversion E].
    destruct (loop euclid cfg known s1 os) as [ev' r] eqn:El; intros E;
      inversion E; subst.
    rewrite (IH s1 ev' El), (step_frame_i cfg known s o ev s1 Es).
    destruct (single_face cfg o); simpl List.length; lia.
Qed.

(** C10: [frame_i] starts at 0 and grows by one exactly on iterations that
    detected one face, so the identity check, which runs when
    [frame_i % ENCODING_EVERY_N == 0] and is skipped otherwise, samples
    single-face iterations. *)
Theorem frame_counter_counts_single_faces (cfg : Config) (known : list Enc) :
  (forall t0, frame_i (init_state t0) = 0%Z) /\
  (forall (s : State) (o : @Obs Loc Enc) evs s',
     step euclid cfg known s o = (evs, Next s') ->
     frame_i s' = (frame_i s + if single_face cfg o then 1 else 0)%Z) /\
  (forall (s : State) (os : list (@Obs Loc Enc)) evs s',
     loop euclid cfg known s os = (evs, Some s') ->
     frame_i s' = (frame_i s + Z.of_nat (List.length (filter (single_face cfg) os)))%Z) /\
  (forall (s : State) (o : @Obs Loc Enc),
     ENCODING_EVERY_N cfg <> 0%Z ->
     Z.modulo (frame_i s) (ENCODING_EVERY_N cfg) <> 0%Z ->
     identity_check euclid cfg known s o = Ok ([], false)).
Proof.
  split; [reflexivity|]; split; [|split].
  - apply step_frame_i.
  - apply loop_frame_i.
  - intros s o HN Hm; unfold identity_check, py_mod.
    rewrite (proj2 (Z.eqb_neq _ _) HN), (proj2 (Z.eqb_neq _ _) Hm).
    reflexivity.
Qed.

(** An exception of the detector ends the loop. *)
Lemma detection_raise_ends_loop (cfg : Config) (known : list Enc)
    (s : State) (o : @Obs Loc Enc) (os : list (@Obs Loc Enc)) :
  (USE_BLUETOOTH cfg && negb (phone_present o)) = false ->
  frame_ok o = true ->
  detect_faces_rgb cfg o = Raise ->
  loop euclid cfg known s (o :: os) =
    ([Log "presence_guard crashed: {e}"; Release], None).
Proof.
  intros Hg Hf Hd; simpl; unfold step; rewrite Hg, Hf, Hd; reflexivity.
Qed.

End Facts.
End PresenceGuardFacts.

(** ** face_detect.py: the decision loop *)
Module FaceDetectFacts.
Import FaceDetect.

Section Facts.
Context {Loc Enc : Type}.
Variable euclid : Enc -> Enc -> Q.

Ltac fd_split_matches :=
  repeat match goal with
         | |- context [match ?x with _ => _ end] => destruct x eqn:?
         | |- context [if ?x then _ else _] => destruct x eqn:?
         end.

Lemma fd_step_lock_then_cooldown (cfg : Config) (known : list Enc) (s : State)
    (o : @Obs Loc Enc) :
  lock_then_cooldown (LOCK_COOLDOWN cfg) (fst (step euclid cfg known s o)).
Proof.
  unfold step; fd_split_matches; simpl; auto.
Qed.

Lemma fd_step_no_lock_sleeps (cfg : Config) (known : list Enc) (s : State)
    (o : @Obs Loc Enc) (evs : list Event) (s' : State) :
  step euclid cfg known s o = (evs, Next s') ->
  count_lock evs = 0%nat ->
  sleeps evs = [CHECK_INTERVAL cfg].
Proof.
  unfold step; fd_split_matches; simpl; intros E; inversion E; subst; clear E;
    simpl; intros; try discriminate; reflexivity.
Qed.

Lemma fd_loop_lock_then_cooldown (cfg : Config) (known : list Enc) (s : State)
    (os : list (@Obs Loc Enc)) :
  lock_then_cooldown (LOCK_COOLDOWN cfg) (fst (loop euclid cfg known s os)).
Proof.
  revert s; induction os as [|o os IH]; intros s; simpl; [exact I|].
  pose proof (fd_step_lock_then_cooldown cfg known s o) as Hs.
  destruct (step euclid cfg known s o) as [evs out]; simpl in Hs.
  destruct out as [s'|].
  - specialize (IH s'); destruct (loop euclid cfg known s' os) as [evs' r].
    simpl in *; apply lock_then_cooldown_app; assumption.
  - simpl; apply lock_then_cooldown_app; simpl; auto.
Qed.

(** Any face count other than one locks, whatever the state. *)
Lemma not_one_face_step (cfg : Config) (known : list Enc) (s : State)
    (o : @Obs Loc Enc) (fl : list Loc) (fe : list Enc) :
  frame_ok o = true -> locs o = Ok fl -> encs o = Ok fe ->
  List.length fe <> 1%nat ->
  step euclid cfg known s o =
    ([Encode; Log "Detected {n_faces} face(s)";
      Log "Condition failed: not exactly one person present -> locking";
      LockCall; Sleep (LOCK_COOLDOWN cfg)],
     Next {| last_lock_time := Some (now o) |}).
Proof.
  intros Hf Hl He Hn; unfold step; rewrite Hf, Hl, He; simpl.
  apply Nat.eqb_neq in Hn; rewrite Hn; reflexivity.
Qed.

(** C9: in face_detect.py, every iteration whose face count is not one,
    zero included, locks at once; the state holds no timer to wait on. *)
Theorem not_exactly_one_face_locks (cfg : Config) (known : list Enc)
    (s : State) (o : @Obs Loc Enc) (fl : list Loc) (fe : list Enc) :
  frame_ok o = true -> locs o = Ok fl -> encs o = Ok fe ->
  List.length fe <> 1%nat ->
  exists evs,
    step euclid cfg known s o = (evs, Next {| last_lock_time := Some (now o) |}) /\
    count_lock evs = 1%nat /\ lock_then_cooldown (LOCK_COOLDOWN cfg) evs.
Proof.
  intros Hf Hl He Hn.
  rewrite (not_one_face_step cfg known s o fl fe Hf Hl He Hn).
  eexists; split; [reflexivity|]; split; [reflexivity|simpl; auto].
Qed.

(** An exception of the detector ends the loop. *)
Lemma fd_detection_raise_ends_loop (cfg : Config) (known : list Enc)
    (s : State) (o : @Obs Loc Enc) (os : list (@Obs Loc Enc)) :
  frame_ok o = true -> locs o = Raise ->
  loop euclid cfg known s (o :: os) =
    ([Log "presence_guard crashed: {e}"; Release], None).
Proof.
  intros Hf Hl; simpl; unfold step; rewrite Hf, Hl; reflexivity.
Qed.

End Facts.
End FaceDetectFacts.

(** ** Both entry points *)
Module EntryPoints.

Section Both.
Context {Loc Enc : Type}.
Variable euclid : Enc -> Enc -> Q.

(** C4: more than one detected face locks at once in both entry points;
    the trace holds no distance computation and does not depend on the
    state, the enrolled set or the timestamps. *)
Theorem multiple_faces_lock_unconditionally :
  (forall (cfg : PresenceGuard.Config) (known : list Enc)
          (s : PresenceGuard.State) (o : @PresenceGuard.Obs Loc Enc)
          (locs : list Loc),
     PresenceGuardFacts.observed cfg o locs -> (2 <= List.length locs)%nat ->
     PresenceGuard.step euclid cfg known s o =
       ([Log "Detected {n_faces} face(s)"; Log "Multiple faces detected -> locking";
         LockCall; Sleep (PresenceGuard.LOCK_COOLDOWN cfg);
         Sleep (PresenceGuard.CHECK_INTERVAL cfg)], Next s)) /\
  (forall (cfg : FaceDetect.Config) (known : list Enc)
          (s : FaceDetect.State) (o : @FaceDetect.Obs Loc Enc)
          (fl : list Loc) (fe : list Enc),
     FaceDetect.frame_ok o = true -> FaceDetect.locs o = Ok fl ->
     FaceDetect.encs o = Ok fe -> (2 <= List.length fe)%nat ->
     FaceDetect.step euclid cfg known s o =
       ([Encode; Log "Detected {n_faces} face(s)";
         Log "Condition failed: not exactly one person present -> locking";
         LockCall; Sleep (FaceDetect.LOCK_COOLDOWN cfg)],
        Next {| FaceDetect.last_lock_time := Some (FaceDetect.now o) |})).
Proof.
  split.
  - intros cfg known s o locs (Hg & Hf & Hd) Hn.
    unfold PresenceGuard.step; rewrite Hg, Hf, Hd; simpl.
    destruct locs as [|x [|y locs]]; simpl in Hn; [lia | lia | reflexivity].
  - intros cfg known s o fl fe Hf Hl He Hn.
    apply (FaceDetectFacts.not_one_face_step euclid cfg known s o fl fe Hf Hl He).
    lia.
Qed.

(** C8: in every run of either loop each lock attempt is immediately
    followed by the lock cooldown sleep, and an iteration that does not
    lock (and does not crash) sleeps once, for the poll interval, which
    the configurations set shorter than the cooldown. *)
Theorem lock_followed_by_cooldown :
  (forall (cfg : PresenceGuard.Config) (known : list Enc)
          (s : PresenceGuard.State) (os : list (@PresenceGuard.Obs Loc Enc)),
     lock_then_cooldown (PresenceGuard.LOCK_COOLDOWN cfg)
       (fst (PresenceGuard.loop euclid cfg known s os))) /\
  (forall (cfg : PresenceGuard.Config) (known : list Enc)
          (s : PresenceGuard.State) (o : @PresenceGuard.Obs Loc Enc) evs s',
     PresenceGuard.step euclid cfg known s o = (evs, Next s') ->
     count_lock evs = 0%nat -> sleeps evs = [PresenceGuard.CHECK_INTERVAL cfg]) /\
  (forall (cfg : FaceDetect.Config) (known : list Enc)
          (s : FaceDetect.State) (os : list (@FaceDetect.Obs Loc Enc)),
     lock_then_cooldown (FaceDetect.LOCK_COOLDOWN cfg)
       (fst (FaceDetect.loop euclid cfg known s os))) /\
  (forall (cfg : FaceDetect.Config) (known : list Enc)
          (s : FaceDetect.State) (o : @FaceDetect.Obs Loc Enc) evs s',
     FaceDetect.step euclid cfg known s o = (evs, Next s') ->
     count_lock evs = 0%nat -> sleeps evs = [FaceDetect.CHECK_INTERVAL cfg]) /\
  PresenceGuard.CHECK_INTERVAL PresenceGuard.config <
    PresenceGuard.LOCK_COOLDOWN PresenceGuard.config /\
  FaceDetect.CHECK_INTERVAL FaceDetect.config < FaceDetect.LOCK_COOLDOWN FaceDetect.config.
Proof.
  split; [|split; [|split; [|split; [|split]]]].
  - intros; apply PresenceGuardFacts.loop_lock_then_cooldown.
  - intros cfg known s o evs s'; apply PresenceGuardFacts.step_no_lock_sleeps.
  - intros; apply FaceDetectFacts.fd_loop_lock_then_cooldown.
  - intros cfg known s o evs s'; apply FaceDetectFacts.fd_step_no_lock_sleeps.
  - reflexivity.
  - reflexivity.
Qed.

(** C3 (as the code does it): an exception of the face detector, in the
    HOG pass or in the CNN fallback, is not mapped to zero faces; it
    escapes the iteration, is caught by the top-level [except Exception],
    logged as a crash, the camera is released and [main] returns: no
    further observation is evaluated. *)
Theorem detector_exception_stops_loop :
  (forall (cfg : PresenceGuard.Config) (known : list Enc)
          (s : PresenceGuard.State) (o : @PresenceGuard.Obs Loc Enc) os,
     (PresenceGuard.USE_BLUETOOTH cfg && negb (PresenceGuard.phone_present o)) = false ->
     PresenceGuard.frame_ok o = true ->
     (PresenceGuard.hog_locs o = Raise \/
      (PresenceGuard.hog_locs o = Ok [] /\ PresenceGuard.USE_CNN_FALLBACK cfg = true /\
       PresenceGuard.cnn_locs o = Raise)) ->
     PresenceGuard.loop euclid cfg known s (o :: os) =
       ([Log "presence_guard crashed: {e}"; Release], None)) /\
  (forall (cfg : FaceDetect.Config) (known : list Enc)
          (s : FaceDetect.State) (o : @FaceDetect.Obs Loc Enc) os,
     FaceDetect.frame_ok o = true -> FaceDetect.locs o = Raise ->
     FaceDetect.loop euclid cfg known s (o :: os) =
       ([Log "presence_guard crashed: {e}"; Release], None)).
Proof.
  split.
  - intros cfg known s o os Hg Hf Hr.
    apply PresenceGuardFacts.detection_raise_ends_loop; [exact Hg | exact Hf |].
    unfold PresenceGuard.detect_faces_rgb.
    destruct Hr as [-> | (-> & -> & ->)]; reflexivity.
  - intros cfg known s o os; apply FaceDetectFacts.fd_detection_raise_ends_loop.
Qed.

End Both.

(** A concrete run of presence_guard.py with the shipped configuration. *)
Definition dist0 (_ _ : unit) : Q := 0.

Definition obs_detector_raises : @PresenceGuard.Obs unit unit := {|
  PresenceGuard.phone_present := true; PresenceGuard.frame_ok := true;
  PresenceGuard.hog_locs := Raise; PresenceGuard.cnn_locs := Ok [];
  PresenceGuard.encs := Ok []; PresenceGuard.now := 0 |}.

Definition obs_no_face : @PresenceGuard.Obs unit unit := {|
  PresenceGuard.phone_present := true; PresenceGuard.frame_ok := true;
  PresenceGuard.hog_locs := Ok []; PresenceGuard.cnn_locs := Ok [];
  PresenceGuard.encs := Ok []; PresenceGuard.now := 0 |}.

(** C3 as stated fails: the raising iteration is not the zero-region
    iteration, and the loop does not continue after it. *)
Lemma detector_exception_not_zero_faces :
  PresenceGuard.step dist0 PresenceGuard.config [tt] (PresenceGuard.init_state 0)
      obs_detector_raises <>
  PresenceGuard.step dist0 PresenceGuard.config [tt] (PresenceGuard.init_state 0)
      obs_no_face /\
  snd (PresenceGuard.loop dist0 PresenceGuard.config [tt] (PresenceGuard.init_state 0)
         [obs_detector_raises; obs_no_face]) = None.
Proof.
  split.
  - vm_compute; intros H; inversion H.
  - vm_compute; reflexivity.
Qed.

End EntryPoints.

(** ** lock_session in both entry points *)
Module LockFacts.

(** [subprocess.run(cmd, check=True, timeout=5)] returns normally. *)
Definition succeeds (run : list string -> CmdResult) (cmd : list string) : bool :=
  match run cmd with Completed rc => Z.eqb rc 0 | _ => false end.

(** The commands tried: up to and including the first that succeeds. *)
Fixpoint upto_success (run : list string -> CmdResult) (cmds : list (list string))
    : list (list string) :=
  match cmds with
  | [] => []
  | c :: cs => if succeeds run c then [c] else c :: upto_success run cs
  end.

Definition final_log (run : list string -> CmdResult) (cmds : list (list string)) : string :=
  match find (succeeds run) cmds with
  | Some c => String.append "Locked via: " (join c)
  | None => "All lock commands failed."
  end.

(** face_detect.py logs a failed command only for an exception other than
    [FileNotFoundError] and [CalledProcessError]. *)
Definition error_logged (run : list string -> CmdResult) (cmd : list string) : bool :=
  match run cmd with TimedOut | OtherError => true | _ => false end.

Lemma pg_cascade_spec (run : list string -> CmdResult) (cmds : list (list string)) :
  attempts (fst (PresenceGuard.cascade run cmds)) = upto_success run cmds /\
  lock_logs (fst (PresenceGuard.cascade run cmds)) = [final_log run cmds] /\
  snd (PresenceGuard.cascade run cmds) = existsb (succeeds run) cmds.
Proof.
  induction cmds as [|c cs IH]; [repeat split|].
  unfold final_log in *.
  cbn [PresenceGuard.cascade upto_success find existsb].
  destruct (PresenceGuard.cascade run cs) as [t r]; cbn [fst snd] in IH.
  destruct IH as (IH1 & IH2 & IH3).
  destruct (succeeds run c) eqn:Hs; unfold succeeds in Hs;
    destruct (run c) as [rc| | |]; try discriminate;
    try (destruct (Z.eqb rc 0); try discriminate);
    cbn [attempts lock_logs fst snd orb]; rewrite ?IH1, ?IH2, ?IH3;
    repeat split.
Qed.

Lemma fd_cascade_spec (run : list string -> CmdResult) (cmds : list (list string)) :
  attempts (fst (FaceDetect.cascade run cmds)) = upto_success run cmds /\
  lock_logs (fst (FaceDetect.cascade run cmds)) =
    map (fun c => String.append "Lock attempt error for " (join c))
        (filter (error_logged run) (upto_success run cmds)) ++ [final_log run cmds] /\
  snd (FaceDetect.cascade run cmds) = existsb (succeeds run) cmds.
Proof.
  induction cmds as [|c cs IH]; [repeat split|].
  unfold final_log in *.
  cbn [FaceDetect.cascade upto_success find existsb].
  destruct (FaceDetect.cascade run cs) as [t r]; cbn [fst snd] in IH.
  destruct IH as (IH1 & IH2 & IH3).
  destruct (succeeds run c) eqn:Hs; unfold succeeds in Hs;
    cbn [filter]; unfold error_logged at 1;
    destruct (run c) as [rc| | |]; try discriminate;
    try (destruct (Z.eqb rc 0); try discriminate);
    cbn [attempts lock_logs fst snd orb filter map app]; rewrite ?IH1, ?IH2, ?IH3;
    repeat split.
Qed.

Lemma upto_success_all_fail (run : list string -> CmdResult) (cmds : list (list string)) :
  existsb (succeeds run) cmds = false -> upto_success run cmds = cmds.
Proof.
  induction cmds as [|c cs IH]; simpl; [reflexivity|].
  destruct (succeeds run c); simpl; [discriminate|].
  intros H; rewrite (IH H); reflexivity.
Qed.

Lemma final_log_all_fail (run : list string -> CmdResult) (cmds : list (list string)) :
  existsb (succeeds run) cmds = false -> final_log run cmds = "All lock commands failed.".
Proof.
  unfold final_log; induction cmds as [|c cs IH]; simpl; [reflexivity|].
  destruct (succeeds run c); simpl; [discriminate|exact IH].
Qed.

(** [upto_success] ends with the first succeeding command, if any. *)
Lemma upto_success_first (run : list string -> CmdResult) (cmds : list (list string))
    (c : list string) :
  find (succeeds run) cmds = Some c ->
  exists pre, upto_success run cmds = pre ++ [c] /\
              Forall (fun p => succeeds run p = false) pre.
Proof.
  induction cmds as [|c' cs IH]; simpl; [discriminate|].
  destruct (succeeds run c') eqn:Hs.
  - intros E; inversion E; subst; exists []; split; [reflexivity | constructor].
  - intros E; destruct (IH E) as (pre & Hp & Hf).
    exists (c' :: pre); split; [rewrite Hp; reflexivity | constructor; assumption].
Qed.

(** C6 (as the code does it): both [lock_session]s try the commands in
    list order up to and including the first that exits with status 0,
    log that one as used and return [True]; a failing command is skipped
    and the cascade goes on, but presence_guard.py logs no line for it
    and face_detect.py logs one only for a timeout or an exception other
    than a missing executable or a non-zero exit; when every command
    fails each is tried once, in order, the total failure is logged and
    the result is [False]. *)
Theorem lock_session_cascade (run : list string -> CmdResult) :
  (attempts (fst (PresenceGuard.lock_session run)) = upto_success run lock_cmds /\
   lock_logs (fst (PresenceGuard.lock_session run)) = [final_log run lock_cmds] /\
   snd (PresenceGuard.lock_session run) = existsb (succeeds run) lock_cmds) /\
  (attempts (fst (FaceDetect.lock_session run)) = upto_success run lock_cmds /\
   lock_logs (fst (FaceDetect.lock_session run)) =
     map (fun c => String.append "Lock attempt error for " (join c))
         (filter (error_logged run) (upto_success run lock_cmds))
       ++ [final_log run lock_cmds] /\
   snd (FaceDetect.lock_session run) = existsb (succeeds run) lock_cmds) /\
  (forall c, find (succeeds run) lock_cmds = Some c ->
     final_log run lock_cmds = String.append "Locked via: " (join c) /\
     exists pre, upto_success run lock_cmds = pre ++ [c] /\
                 Forall (fun p => succeeds run p = false) pre) /\
  (existsb (succeeds run) lock_cmds = false ->
     upto_success run lock_cmds = lock_cmds /\
     final_log run lock_cmds = "All lock commands failed.").
Proof.
  split; [apply pg_cascade_spec|]; split; [apply fd_cascade_spec|]; split.
  - intros c Hc; split; [unfold final_log; rewrite Hc; reflexivity|].
    apply upto_success_first, Hc.
  - intros H; split; [apply upto_success_all_fail | apply final_log_all_fail]; exact H.
Qed.

(** Every command failed and was logged by name. *)
Definition each_failure_logged (run : list string -> CmdResult) (t : list LockEvent) : Prop :=
  forall c, In c (attempts t) -> succeeds run c = false ->
  exists m, In m (lock_logs t) /\ String.index 0 (join c) m <> None.

Definition all_missing (_ : list string) : CmdResult := NotFound.

(** C6 as stated fails: with no lock utility installed, neither
    [lock_session] logs the commands it skipped. *)
Lemma lock_failures_not_logged :
  ~ each_failure_logged all_missing (fst (PresenceGuard.lock_session all_missing)) /\
  ~ each_failure_logged all_missing (fst (FaceDetect.lock_session all_missing)).
Proof.
  split; intros H;
    destruct (H ["loginctl"; "lock-sessions"] ltac:(vm_compute; auto) eq_refl)
      as (m & Hm & Hi);
    vm_compute in Hm; destruct Hm as [<- | []]; apply Hi; vm_compute; reflexivity.
Qed.

End LockFacts.

(** ** presence_guard.py: startup *)
Module StartupFacts.
Import PresenceGuard.

Section Facts.
Context {Loc Enc : Type}.

(** The image loads, a face is found and an encoding is computed. *)
Definition usable (f : @EnrollFile Loc Enc) : bool :=
  ef_load_ok f &&
  match ef_locs f with
  | Ok (_ :: _) => match ef_encs f with Ok (_ :: _) => true | _ => false end
  | _ => false
  end.

(** A directory entry contributes an embedding. *)
Definition yields_encoding (f : @EnrollFile Loc Enc) : bool :=
  ef_is_file f && usable f.

Lemma load_one_empty (f : @EnrollFile Loc Enc) :
  snd (load_one f) = [] <-> usable f = false.
Proof.
  unfold load_one, usable.
  destruct (ef_load_ok f); [|simpl; tauto].
  destruct (ef_locs f) as [[|x xs]|]; simpl; [tauto| |tauto].
  destruct (ef_encs f) as [[|e es]|]; simpl; split; congruence.
Qed.

Lemma load_files_cons (f : @EnrollFile Loc Enc) (fs : list EnrollFile) :
  load_files (f :: fs) =
    (fst (load_one f) ++ fst (load_files fs), snd (load_one f) ++ snd (load_files fs)).
Proof.
  simpl; destruct (load_one f), (load_files fs); reflexivity.
Qed.

Lemma load_files_empty (fs : list (@EnrollFile Loc Enc)) :
  snd (load_files fs) = [] <-> forall f, In f fs -> usable f = false.
Proof.
  induction fs as [|f fs IH]; [simpl; tauto|].
  rewrite load_files_cons; simpl.
  split.
  - intros H f' [<- | Hin].
    + apply load_one_empty; apply app_eq_nil in H; apply H.
    + apply IH; [apply app_eq_nil in H; apply H | exact Hin].
  - intros H.
    rewrite (proj2 (load_one_empty f) (H f (or_introl eq_refl))).
    apply IH; intros f' Hf'; apply H; right; exact Hf'.
Qed.

Lemma load_files_logs (fs : list (@EnrollFile Loc Enc)) (f : EnrollFile) (m : Event) :
  In f fs -> In m (fst (load_one f)) -> In m (fst (load_files fs)).
Proof.
  induction fs as [|f' fs IH]; [intros []|].
  rewrite load_files_cons; simpl; intros [<- | Hin] Hm; apply in_or_app;
    [left; exact Hm | right; apply IH; assumption].
Qed.

Lemma load_known_none (entries : list (@EnrollFile Loc Enc)) :
  snd (load_known_encodings entries) = None <->
  ~ exists f, In f entries /\ yields_encoding f = true.
Proof.
  unfold load_known_encodings.
  pose proof (load_files_empty (filter ef_is_file entries)) as He.
  destruct (load_files (filter ef_is_file entries)) as [l encodings]; simpl in *.
  unfold yields_encoding.
  assert (Hiff : encodings = [] <-> ~ exists f, In f entries /\ (ef_is_file f && usable f) = true).
  { rewrite He; split.
    - intros H (f & Hin & Hy); apply andb_true_iff in Hy; destruct Hy as [Hfile Hu].
      rewrite (H f) in Hu; [discriminate|]; apply filter_In; split; assumption.
    - intros H f Hin; apply filter_In in Hin; destruct Hin as [Hin Hfile].
      destruct (usable f) eqn:Hu; [|reflexivity].
      exfalso; apply H; exists f; rewrite Hfile, Hu; split; [exact Hin | reflexivity]. }
  rewrite <- Hiff; destruct encodings; split; congruence.
Qed.

Lemma load_known_not_empty (entries : list (@EnrollFile Loc Enc)) :
  snd (load_known_encodings entries) <> Some [].
Proof.
  unfold load_known_encodings.
  destruct (load_files (filter ef_is_file entries)) as [l [|e es]]; simpl; discriminate.
Qed.

(** C7: startup exits with status 1, before the loop, exactly when the
    enrollment directory is missing, no entry yields an embedding, or no
    camera opens; otherwise the loop starts with a non-empty enrolled set.
    An image without a face is logged and skipped, and loading succeeds
    whenever one entry yields an embedding. *)
Theorem startup_exit_conditions (cfg : Config) (dir_exists : bool)
    (entries : list (@EnrollFile Loc Enc)) (opens : Z -> bool) :
  ((exists l c, startup cfg dir_exists entries opens = (l, Exit c)) <->
   (dir_exists = false \/
    (~ exists f, In f entries /\ yields_encoding f = true) \/
    open_camera cfg opens = None)) /\
  (forall l c, startup cfg dir_exists entries opens = (l, Exit c) -> c = 1%Z) /\
  (forall l k idx, startup cfg dir_exists entries opens = (l, EnterLoop k idx) -> k <> []) /\
  (forall f, In f entries -> ef_is_file f = true -> ef_load_ok f = true ->
     ef_locs f = Ok [] ->
     In (Log (String.append "No face found in enroll image: " (ef_path f)))
        (fst (load_known_encodings entries))) /\
  (snd (load_known_encodings entries) <> None <->
   exists f, In f entries /\ yields_encoding f = true).
Proof.
  pose proof (load_known_none entries) as Hn.
  pose proof (load_known_not_empty entries) as Hne.
  assert (Hlog : forall f, In f entries -> ef_is_file f = true -> ef_load_ok f = true ->
     ef_locs f = Ok [] ->
     In (Log (String.append "No face found in enroll image: " (ef_path f)))
        (fst (load_known_encodings entries))).
  { intros f Hin Hfile Hload Hlocs.
    unfold load_known_encodings.
    pose proof (load_files_logs (filter ef_is_file entries) f
                  (Log (String.append "No face found in enroll image: " (ef_path f)))) as Hl.
    destruct (load_files (filter ef_is_file entries)) as [l encodings]; simpl in *.
    apply Hl; [apply filter_In; split; assumption|].
    unfold load_one; rewrite Hload, Hlocs; simpl; left; reflexivity. }
  unfold startup.
  destruct (load_known_encodings entries) as [l known] eqn:HL; simpl in Hn, Hne, Hlog.
  split; [|split; [|split; [|split]]].
  - destruct dir_exists; simpl.
    + destruct known as [[|k ks]|].
      * congruence.
      * destruct (open_camera cfg opens) as [idx|] eqn:Hc.
        -- split; [intros (l' & c & E); discriminate|].
           intros [H | [H | H]]; [discriminate | | discriminate].
           apply Hn in H; discriminate.
        -- split; [intros _; right; right; reflexivity
                  | intros _; eexists; eexists; reflexivity].
      * split; [intros _; right; left; apply Hn; reflexivity
               | intros _; eexists; eexists; reflexivity].
    + split; [intros _; left; reflexivity | intros _; eexists; eexists; reflexivity].
  - intros l' c; destruct dir_exists; simpl; [|intros E; inversion E; reflexivity].
    destruct known as [[|k ks]|]; [intros E; inversion E; reflexivity| |
                                   intros E; inversion E; reflexivity].
    destruct (open_camera cfg opens); intros E; inversion E; reflexivity.
  - intros l' k idx; destruct dir_exists; simpl; [|discriminate].
    destruct known as [[|k' ks]|]; [discriminate| |discriminate].
    destruct (open_camera cfg opens); intros E; inversion E; discriminate.
  - exact Hlog.
  - split.
    + intros Hk; apply existsb_exists.
      destruct (existsb yields_encoding entries) eqn:Hx; [reflexivity|].
      exfalso; apply Hk, Hn; intros Hex.
      apply existsb_exists in Hex; congruence.
    + intros Hex Hk; apply Hn in Hk; apply Hk, Hex.
Qed.

End Facts.
End StartupFacts.

(** ** Concrete instances *)
Module Witnesses.

(** Encodings as integers, at distance [|a - b|]. *)
Definition dist_z (a b : Z) : Q := inject_Z (Z.abs (a - b)).

Definition known_z : list Z := [0; 10]%Z.

Definition pg_obs (hog : Result (list unit)) (e : Result (list Z)) (t : Z)
    : @PresenceGuard.Obs unit Z := {|
  PresenceGuard.phone_present := true; PresenceGuard.frame_ok := true;
  PresenceGuard.hog_locs := hog; PresenceGuard.cnn_locs := Ok [];
  PresenceGuard.encs := e; PresenceGuard.now := t |}.

Definition fd_obs (e : Result (list Z)) : @FaceDetect.Obs unit Z := {|
  FaceDetect.frame_ok := true; FaceDetect.locs := Ok [];
  FaceDetect.encs := e; FaceDetect.now := 3 |}.

(** The configuration with the identity check every second frame. *)
Definition config_every_2 : PresenceGuard.Config := {|
  PresenceGuard.ALLOWED_TOLERANCE := 65 # 100;
  PresenceGuard.CHECK_INTERVAL := 35 # 100;
  PresenceGuard.LOCK_COOLDOWN := 4;
  PresenceGuard.ABSENCE_TIMEOUT := 6;
  PresenceGuard.USE_BLUETOOTH := false;
  PresenceGuard.VIDEO_DEVICE := None;
  PresenceGuard.USE_CNN_FALLBACK := true;
  PresenceGuard.ENCODING_EVERY_N := 2
|}.

Lemma single_face_not_authorized_locks_witness :
  exists evs,
    PresenceGuard.step dist_z PresenceGuard.config known_z (PresenceGuard.init_state 0)
      (pg_obs (Ok [tt]) (Ok [5%Z]) 7) =
    (evs, Next {| PresenceGuard.last_seen_someone := 0; PresenceGuard.frame_i := 0 + 1 |}) /\
    count_lock evs = 1%nat /\ lock_then_cooldown 4 evs.
Proof.
  apply (PresenceGuardFacts.single_face_not_authorized_locks dist_z PresenceGuard.config
           known_z (PresenceGuard.init_state 0) (pg_obs (Ok [tt]) (Ok [5%Z]) 7) tt).
  - split; [reflexivity | split; reflexivity].
  - discriminate.
  - right; right; exists 5%Z, []; split; [reflexivity | split; [discriminate |]].
    intros k Hk; destruct Hk as [<- | [<- | []]]; vm_compute; reflexivity.
Defined.

Lemma single_face_authorized_no_lock_witness :
  exists evs,
    PresenceGuard.step dist_z PresenceGuard.config known_z (PresenceGuard.init_state 0)
      (pg_obs (Ok [tt]) (Ok [0%Z]) 7) =
    (evs, Next {| PresenceGuard.last_seen_someone := 7; PresenceGuard.frame_i := 0 + 1 |}) /\
    count_lock evs = 0%nat.
Proof.
  apply (PresenceGuardFacts.single_face_authorized_no_lock dist_z PresenceGuard.config
           known_z (PresenceGuard.init_state 0) (pg_obs (Ok [tt]) (Ok [0%Z]) 7) tt 0%Z []).
  - split; [reflexivity | split; reflexivity].
  - discriminate.
  - reflexivity.
  - reflexivity.
  - exists 0%Z; split; [left; reflexivity | vm_compute; discriminate].
Defined.

Lemma zero_faces_absence_timeout_witness :
  snd (PresenceGuard.step dist_z PresenceGuard.config known_z (PresenceGuard.init_state 0)
         (pg_obs (Ok []) (Ok []) 7000000)) = Next (PresenceGuard.init_state 0) /\
  (In LockCall (fst (PresenceGuard.step dist_z PresenceGuard.config known_z
                       (PresenceGuard.init_state 0) (pg_obs (Ok []) (Ok []) 7000000))) <->
   (6 * 1000000 <= 7000000 - 0)%Z).
Proof.
  apply (proj1 (PresenceGuardFacts.zero_faces_absence_timeout dist_z PresenceGuard.config known_z)).
  split; [reflexivity | split; reflexivity].
Defined.

Lemma frame_counter_counts_single_faces_witness :
  PresenceGuard.identity_check dist_z config_every_2 known_z
    {| PresenceGuard.last_seen_someone := 0; PresenceGuard.frame_i := 1 |}
    (pg_obs (Ok [tt]) (Ok [0%Z]) 7) = Ok ([], false).
Proof.
  apply (proj2 (proj2 (proj2 (PresenceGuardFacts.frame_counter_counts_single_faces
                                dist_z config_every_2 known_z)))).
  - discriminate.
  - vm_compute; discriminate.
Defined.

Lemma not_exactly_one_face_locks_witness :
  exists evs,
    FaceDetect.step dist_z FaceDetect.config known_z FaceDetect.init_state (fd_obs (Ok [])) =
      (evs, Next {| FaceDetect.last_lock_time := Some 3%Z |}) /\
    count_lock evs = 1%nat /\ lock_then_cooldown 5 evs.
Proof.
  apply (FaceDetectFacts.not_exactly_one_face_locks dist_z FaceDetect.config known_z
           FaceDetect.init_state (fd_obs (Ok [])) [] []).
  - reflexivity.
  - reflexivity.
  - reflexivity.
  - discriminate.
Defined.

Lemma multiple_faces_lock_unconditionally_witness :
  PresenceGuard.step dist_z PresenceGuard.config known_z (PresenceGuard.init_state 0)
    (pg_obs (Ok [tt; tt]) (Ok [0%Z; 0%Z]) 7) =
  ([Log "Detected {n_faces} face(s)"; Log "Multiple faces detected -> locking";
    LockCall; Sleep 4; Sleep (35 # 100)], Next (PresenceGuard.init_state 0)).
Proof.
  apply (proj1 (EntryPoints.multiple_faces_lock_unconditionally dist_z)
           PresenceGuard.config known_z (PresenceGuard.init_state 0)
           (pg_obs (Ok [tt; tt]) (Ok [0%Z; 0%Z]) 7) [tt; tt]).
  - split; [reflexivity | split; reflexivity].
  - simpl; lia.
Defined.

Lemma lock_followed_by_cooldown_witness :
  sleeps (fst (PresenceGuard.step dist_z PresenceGuard.config known_z
                 (PresenceGuard.init_state 0) (pg_obs (Ok [tt]) (Ok [0%Z]) 7))) =
  [35 # 100].
Proof.
  apply (proj1 (proj2 (EntryPoints.lock_followed_by_cooldown dist_z))
           PresenceGuard.config known_z (PresenceGuard.init_state 0)
           (pg_obs (Ok [tt]) (Ok [0%Z]) 7) _
           {| PresenceGuard.last_seen_someone := 7; PresenceGuard.frame_i := 1 |}).
  - vm_compute; reflexivity.
  - vm_compute; reflexivity.
Defined.

Lemma detector_exception_stops_loop_witness :
  PresenceGuard.loop EntryPoints.dist0 PresenceGuard.config [tt] (PresenceGuard.init_state 0)
    [EntryPoints.obs_detector_raises; EntryPoints.obs_no_face] =
  ([Log "presence_guard crashed: {e}"; Release], None).
Proof.
  apply (proj1 (EntryPoints.detector_exception_stops_loop EntryPoints.dist0)).
  - reflexivity.
  - reflexivity.
  - left; reflexivity.
Defined.

Lemma lock_session_cascade_witness :
  LockFacts.upto_success LockFacts.all_missing lock_cmds = lock_cmds /\
  LockFacts.final_log LockFacts.all_missing lock_cmds = "All lock commands failed.".
Proof.
  apply (proj2 (proj2 (proj2 (LockFacts.lock_session_cascade LockFacts.all_missing)))).
  reflexivity.
Defined.

Lemma startup_exit_conditions_witness :
  exists l c, PresenceGuard.startup PresenceGuard.config true
                ([] : list (@PresenceGuard.EnrollFile unit Z)) (fun _ => true) = (l, PresenceGuard.Exit c).
Proof.
  apply (proj2 (proj1 (StartupFacts.startup_exit_conditions PresenceGuard.config true
                         ([] : list (@PresenceGuard.EnrollFile unit Z)) (fun _ => true)))).
  right; left; intros (f & [] & _).
Defined.

End Witnesses.

(** ** Further properties of both entry points *)
Module Extras.

(** *** is_phone_present *)





(** *** open_camera *)

(** An explicit device is the only index probed; otherwise the camera is
    the first of 0..3 that opens, and none is found only when all four
    fail. *)
Theorem open_camera_first_opening (cfg : PresenceGuard.Config) (opens : Z -> bool) :
  (forall i, PresenceGuard.VIDEO_DEVICE cfg = Some i ->
     PresenceGuard.open_camera cfg opens = if opens i then Some i else None) /\
  (PresenceGuard.VIDEO_DEVICE cfg = None -> forall idx,
     PresenceGuard.open_camera cfg opens = Some idx ->
     (0 <= idx <= 3)%Z /\ opens idx = true /\
     forall j, (0 <= j < idx)%Z -> opens j = false) /\
  (PresenceGuard.VIDEO_DEVICE cfg = None ->
     PresenceGuard.open_camera cfg opens = None ->
     forall j, (0 <= j <= 3)%Z -> opens j = false).
Proof.
  unfold PresenceGuard.open_camera.
  split; [|split].
  - intros i ->; simpl; destruct (opens i); reflexivity.
  - intros -> idx; simpl.
    destruct (opens 0%Z) eqn:H0; [intros E; inversion E; subst; split; [lia|split; [exact H0|intros; lia]]|].
    destruct (opens 1%Z) eqn:H1; [intros E; inversion E; subst; split; [lia|split; [exact H1|]]|].
    { intros j Hj; assert (j = 0%Z) as -> by lia; exact H0. }
    destruct (opens 2%Z) eqn:H2; [intros E; inversion E; subst; split; [lia|split; [exact H2|]]|].
    { intros j Hj; assert (j = 0%Z \/ j = 1%Z) as [-> | ->] by lia; assumption. }
    destruct (opens 3%Z) eqn:H3; [intros E; inversion E; subst; split; [lia|split; [exact H3|]]|].
    { intros j Hj; assert (j = 0%Z \/ j = 1%Z \/ j = 2%Z) as [-> | [-> | ->]] by lia; assumption. }
    discriminate.
  - intros -> Hn j Hj; simpl in Hn.
    destruct (opens 0%Z) eqn:H0; [discriminate|].
    destruct (opens 1%Z) eqn:H1; [discriminate|].
    destruct (opens 2%Z) eqn:H2; [discriminate|].
    destruct (opens 3%Z) eqn:H3; [discriminate|].
    assert (j = 0%Z \/ j = 1%Z \/ j = 2%Z \/ j = 3%Z) as [-> | [-> | [-> | ->]]] by lia;
      assumption.
Qed.

Section Loops.
Context {Loc Enc : Type}.
Variable euclid : Enc -> Enc -> Q.

Fixpoint no_encode (evs : list Event) : bool :=
  match evs with
  | [] => true
  | Encode :: _ => false
  | _ :: evs' => no_encode evs'
  end.

Lemma no_encode_app (l1 l2 : list Event) :
  no_encode (l1 ++ l2) = no_encode l1 && no_encode l2.
Proof.
  induction l1 as [|e l1 IH]; simpl; [reflexivity|].
  destruct e; simpl; try exact IH; reflexivity.
Qed.

(** With the second factor enabled, a run in which the phone is never
    present locks on every iteration, never looks at the camera or runs
    face detection, and keeps the state. *)
Theorem bluetooth_absent_run_locks (cfg : PresenceGuard.Config) (known : list Enc)
    (s : PresenceGuard.State) (os : list (@PresenceGuard.Obs Loc Enc)) :
  PresenceGuard.USE_BLUETOOTH cfg = true ->
  (forall o, In o os -> PresenceGuard.phone_present o = false) ->
  exists evs, PresenceGuard.loop euclid cfg known s os = (evs, Some s) /\
    count_lock evs = List.length os /\ no_encode evs = true /\
    sleeps evs = repeat (PresenceGuard.LOCK_COOLDOWN cfg) (List.length os).
Proof.
  intros Hb; induction os as [|o os IH]; intros Hall.
  - exists []; repeat split.
  - destruct IH as (evs & Hl & Hc & He & Hs).
    { intros o' Ho'; apply Hall; right; exact Ho'. }
    simpl; unfold PresenceGuard.step at 1.
    rewrite Hb, (Hall o (or_introl eq_refl)); simpl; rewrite Hl.
    eexists; split; [reflexivity|]; simpl.
    rewrite Hc, He, Hs; repeat split.
Qed.

(** A camera that returns no frame never causes a lock in
    presence_guard.py, however long it lasts: the state, and with it the
    absence timer, is left as it was. *)
Theorem pg_frame_failures_never_lock (cfg : PresenceGuard.Config) (known : list Enc)
    (s : PresenceGuard.State) (os : list (@PresenceGuard.Obs Loc Enc)) :
  (forall o, In o os ->
     (PresenceGuard.USE_BLUETOOTH cfg && negb (PresenceGuard.phone_present o)) = false /\
     PresenceGuard.frame_ok o = false) ->
  exists evs, PresenceGuard.loop euclid cfg known s os = (evs, Some s) /\
    count_lock evs = 0%nat /\
    sleeps evs = repeat (PresenceGuard.CHECK_INTERVAL cfg) (List.length os).
Proof.
  induction os as [|o os IH]; intros Hall.
  - exists []; repeat split.
  - destruct IH as (evs & Hl & Hc & Hs).
    { intros o' Ho'; apply Hall; right; exact Ho'. }
    destruct (Hall o (or_introl eq_refl)) as [Hg Hf].
    simpl; unfold PresenceGuard.step at 1; rewrite Hg, Hf; simpl; rewrite Hl.
    eexists; split; [reflexivity|]; simpl; rewrite Hc, Hs; split; reflexivity.
Qed.

(** The same holds in face_detect.py. *)
Theorem fd_frame_failures_never_lock (cfg : FaceDetect.Config) (known : list Enc)
    (s : FaceDetect.State) (os : list (@FaceDetect.Obs Loc Enc)) :
  (forall o, In o os -> FaceDetect.frame_ok o = false) ->
  exists evs, FaceDetect.loop euclid cfg known s os = (evs, Some s) /\
    count_lock evs = 0%nat /\
    sleeps evs = repeat (FaceDetect.CHECK_INTERVAL cfg) (List.length os).
Proof.
  induction os as [|o os IH]; intros Hall.
  - exists []; repeat split.
  - destruct IH as (evs & Hl & Hc & Hs).
    { intros o' Ho'; apply Hall; right; exact Ho'. }
    simpl; unfold FaceDetect.step at 1; rewrite (Hall o (or_introl eq_refl)); simpl; rewrite Hl.
    eexists; split; [reflexivity|]; simpl; rewrite Hc, Hs; split; reflexivity.
Qed.

(** The configuration with another tolerance. *)
Definition with_tolerance (cfg : PresenceGuard.Config) (t : Q) : PresenceGuard.Config := {|
  PresenceGuard.ALLOWED_TOLERANCE := t;
  PresenceGuard.CHECK_INTERVAL := PresenceGuard.CHECK_INTERVAL cfg;
  PresenceGuard.LOCK_COOLDOWN := PresenceGuard.LOCK_COOLDOWN cfg;
  PresenceGuard.ABSENCE_TIMEOUT := PresenceGuard.ABSENCE_TIMEOUT cfg;
  PresenceGuard.USE_BLUETOOTH := PresenceGuard.USE_BLUETOOTH cfg;
  PresenceGuard.VIDEO_DEVICE := PresenceGuard.VIDEO_DEVICE cfg;
  PresenceGuard.USE_CNN_FALLBACK := PresenceGuard.USE_CNN_FALLBACK cfg;
  PresenceGuard.ENCODING_EVERY_N := PresenceGuard.ENCODING_EVERY_N cfg
|}.

(** The observation with another CNN result, or another encoder result. *)
Definition with_cnn (o : @PresenceGuard.Obs Loc Enc) (c : Result (list Loc)) : PresenceGuard.Obs := {|
  PresenceGuard.phone_present := PresenceGuard.phone_present o;
  PresenceGuard.frame_ok := PresenceGuard.frame_ok o;
  PresenceGuard.hog_locs := PresenceGuard.hog_locs o;
  PresenceGuard.cnn_locs := c;
  PresenceGuard.encs := PresenceGuard.encs o;
  PresenceGuard.now := PresenceGuard.now o |}.




Lemma single_face_branch (cfg : PresenceGuard.Config) (known : list Enc)
    (s : PresenceGuard.State) (o : @PresenceGuard.Obs Loc Enc) (l : Loc) :
  PresenceGuardFacts.observed cfg o [l] ->
  PresenceGuard.step euclid cfg known s o =
    match PresenceGuard.identity_check euclid cfg known s o with
    | Raise => ([Log "Detected {n_faces} face(s)"], Crashed)
    | Ok (evs, authorized) =>
        if authorized then
          ([Log "Detected {n_faces} face(s)"] ++ evs ++
             [Log "Authorized face present — all good."; Sleep (PresenceGuard.CHECK_INTERVAL cfg)],
           Next {| PresenceGuard.last_seen_someone := PresenceGuard.now o;
                   PresenceGuard.frame_i := PresenceGuard.frame_i s + 1 |})
        else
          ([Log "Detected {n_faces} face(s)"] ++ evs ++
             [Log "Single face not authorized -> locking"; LockCall;
              Sleep (PresenceGuard.LOCK_COOLDOWN cfg); Sleep (PresenceGuard.CHECK_INTERVAL cfg)],
           Next {| PresenceGuard.last_seen_someone := PresenceGuard.last_seen_someone s;
                   PresenceGuard.frame_i := PresenceGuard.frame_i s + 1 |})
    end.
Proof.
  intros (Hg & Hf & Hd); unfold PresenceGuard.step; rewrite Hg, Hf, Hd; reflexivity.
Qed.

(** An iteration that reaches the step without a lock either did not get
    past the camera or was authorized. *)
Lemma step_no_lock_cases (cfg : PresenceGuard.Config) (known : list Enc)
    (s : PresenceGuard.State) (o : @PresenceGuard.Obs Loc Enc) evs s' :
  PresenceGuard.step euclid cfg known s o = (evs, Next s') -> count_lock evs = 0%nat ->
  (exists l evs0, PresenceGuardFacts.observed cfg o [l] /\
     PresenceGuard.identity_check euclid cfg known s o = Ok (evs0, true)) \/
  (forall l, ~ PresenceGuardFacts.observed cfg o [l]).
Proof.
  intros E Hc.
  destruct (PresenceGuard.USE_BLUETOOTH cfg && negb (PresenceGuard.phone_present o)) eqn:Hg.
  { right; intros l (Hg' & _); congruence. }
  destruct (PresenceGuard.frame_ok o) eqn:Hf.
  2: { right; intros l (_ & Hf' & _); congruence. }
  destruct (PresenceGuard.detect_faces_rgb cfg o) as [[|l [|l' ls]]|] eqn:Hd;
    try (right; intros l0 (_ & _ & Hd'); rewrite Hd' in Hd; inversion Hd; fail).
  assert (Hobs : PresenceGuardFacts.observed cfg o [l]) by (split; [|split]; assumption).
  rewrite (single_face_branch cfg known s o l Hobs) in E.
  destruct (PresenceGuard.identity_check euclid cfg known s o) as [[evs0 b]|] eqn:Hi;
    [|discriminate].
  destruct b.
  - left; exists l, evs0; split; [exact Hobs | reflexivity].
  - inversion E; subst; simpl in Hc; rewrite ?count_lock_app in Hc; simpl in Hc; lia.
Qed.

(** Raising the tolerance never adds a lock: an iteration that does not
    lock keeps its trace and its new state under any larger tolerance. *)
Theorem tolerance_monotone (cfg : PresenceGuard.Config) (t : Q) (known : list Enc)
    (s : PresenceGuard.State) (o : @PresenceGuard.Obs Loc Enc) evs s' :
  PresenceGuard.ALLOWED_TOLERANCE cfg <= t ->
  PresenceGuard.step euclid cfg known s o = (evs, Next s') -> count_lock evs = 0%nat ->
  PresenceGuard.step euclid (with_tolerance cfg t) known s o = (evs, Next s').
Proof.
  intros Ht E Hc.
  destruct (step_no_lock_cases cfg known s o evs s' E Hc) as [(l & evs0 & Hobs & Hi) | Hno].
  - assert (Hobs' : PresenceGuardFacts.observed (with_tolerance cfg t) o [l]) by exact Hobs.
    rewrite (single_face_branch cfg known s o l Hobs), Hi in E.
    rewrite (single_face_branch (with_tolerance cfg t) known s o l Hobs').
    assert (Hi' : PresenceGuard.identity_check euclid (with_tolerance cfg t) known s o
                  = Ok (evs0, true)).
    { revert Hi; unfold PresenceGuard.identity_check.
      change (PresenceGuard.ENCODING_EVERY_N (with_tolerance cfg t))
        with (PresenceGuard.ENCODING_EVERY_N cfg).
      change (PresenceGuard.ALLOWED_TOLERANCE (with_tolerance cfg t)) with t.
      destruct (py_mod _ _) as [r|]; [|discriminate].
      destruct (Z.eqb r 0); [|discriminate].
      destruct (PresenceGuard.encs o) as [[|e es]|]; try discriminate.
      destruct (PresenceGuard.best_distance euclid known e) as [b|]; [|discriminate].
      intros H; injection H as H1 H2; apply Qle_bool_iff in H2.
      assert (Hb : Qle_bool b t = true) by (apply Qle_bool_iff; eapply Qle_trans; eassumption).
      rewrite Hb, <- H1; reflexivity. }
    rewrite Hi'; exact E.
  - revert E; unfold PresenceGuard.step; simpl.
    destruct (PresenceGuard.USE_BLUETOOTH cfg && negb (PresenceGuard.phone_present o)) eqn:Hg;
      [intros E; exact E|].
    destruct (PresenceGuard.frame_ok o) eqn:Hf; [|intros E; exact E].
    assert (Hd' : PresenceGuard.detect_faces_rgb (with_tolerance cfg t) o =
                  PresenceGuard.detect_faces_rgb cfg o) by reflexivity.
    rewrite Hd'; simpl.
    destruct (PresenceGuard.detect_faces_rgb cfg o) as [[|l [|l' ls]]|] eqn:Hd;
      try (intros E; exact E).
    exfalso; apply (Hno l); split; [|split]; assumption.
Qed.


(** After an authorized iteration at time [t], a later zero-face iteration
    locks exactly when [ABSENCE_TIMEOUT] seconds have passed since [t]. *)
Theorem absence_measured_from_authorization (cfg : PresenceGuard.Config) (known : list Enc)
    (s : PresenceGuard.State) (o1 o2 : @PresenceGuard.Obs Loc Enc) (l : Loc) evs1 s1 :
  PresenceGuardFacts.observed cfg o1 [l] ->
  PresenceGuard.step euclid cfg known s o1 = (evs1, Next s1) -> count_lock evs1 = 0%nat ->
  PresenceGuardFacts.observed cfg o2 [] ->
  (In LockCall (fst (PresenceGuard.step euclid cfg known s1 o2)) <->
   (PresenceGuard.ABSENCE_TIMEOUT cfg * 1000000 <=
      PresenceGuard.now o2 - PresenceGuard.now o1)%Z).
Proof.
  intros Hobs1 E Hc Hobs2.
  assert (Hs1 : PresenceGuard.last_seen_someone s1 = PresenceGuard.now o1).
  { rewrite (single_face_branch cfg known s o1 l Hobs1) in E.
    destruct (PresenceGuard.identity_check euclid cfg known s o1) as [[evs0 b]|];
      [|discriminate].
    destruct b; inversion E; subst; [reflexivity|].
    simpl in Hc; rewrite ?count_lock_app in Hc; simpl in Hc; lia. }
  destruct Hobs2 as (Hg & Hf & Hd).
  unfold PresenceGuard.step; rewrite Hg, Hf, Hd; simpl; rewrite Hs1.
  destruct (Z.leb_spec (PresenceGuard.ABSENCE_TIMEOUT cfg * 1000000)
              (PresenceGuard.now o2 - PresenceGuard.now o1)) as [Ht|Ht]; simpl.
  - split; [intros _; exact Ht | intros _; auto 6].
  - split; [|lia].
    intros H; repeat (destruct H as [H|H]; [discriminate|]); contradiction.
Qed.

(** Whatever the CNN pass would return has no effect when it is not run:
    when HOG finds a face or raises, or the fallback is disabled. *)
Theorem cnn_result_unused (cfg : PresenceGuard.Config) (known : list Enc)
    (s : PresenceGuard.State) (o : @PresenceGuard.Obs Loc Enc) (c : Result (list Loc)) :
  PresenceGuard.hog_locs o <> Ok [] \/ PresenceGuard.USE_CNN_FALLBACK cfg = false ->
  PresenceGuard.step euclid cfg known s (with_cnn o c) =
  PresenceGuard.step euclid cfg known s o.
Proof.
  intros H.
  assert (Hd : PresenceGuard.detect_faces_rgb cfg (with_cnn o c) =
               PresenceGuard.detect_faces_rgb cfg o).
  { unfold PresenceGuard.detect_faces_rgb; simpl.
    destruct (PresenceGuard.hog_locs o) as [[|x xs]|]; try reflexivity.
    destruct H as [H | ->]; [congruence | reflexivity]. }
  unfold PresenceGuard.step; rewrite Hd; reflexivity.
Qed.


(** With [ENCODING_EVERY_N = 0] the first single-face iteration raises
    [ZeroDivisionError] and ends the loop. *)
Theorem zero_sampling_interval_crashes (cfg : PresenceGuard.Config) (known : list Enc)
    (s : PresenceGuard.State) (o : @PresenceGuard.Obs Loc Enc) (l : Loc) os :
  PresenceGuardFacts.observed cfg o [l] ->
  PresenceGuard.ENCODING_EVERY_N cfg = 0%Z ->
  PresenceGuard.loop euclid cfg known s (o :: os) =
    ([Log "Detected {n_faces} face(s)"; Log "presence_guard crashed: {e}"; Release], None).
Proof.
  intros Hobs HN; simpl.
  rewrite (single_face_branch cfg known s o l Hobs).
  unfold PresenceGuard.identity_check, py_mod; rewrite HN; reflexivity.
Qed.


(** *** Enrollment *)

Definition first_encoding (f : @PresenceGuard.EnrollFile Loc Enc) : list Enc :=
  match PresenceGuard.ef_encs f with Ok (e :: _) => [e] | _ => [] end.

Lemma pg_load_files_encodings (fs : list (@PresenceGuard.EnrollFile Loc Enc)) :
  snd (PresenceGuard.load_files fs) =
  flat_map first_encoding (filter StartupFacts.usable fs).
Proof.
  induction fs as [|f fs IH]; [reflexivity|].
  rewrite StartupFacts.load_files_cons; simpl; rewrite IH.
  unfold PresenceGuard.load_one, StartupFacts.usable, first_encoding.
  destruct (PresenceGuard.ef_load_ok f); simpl; [|reflexivity].
  destruct (PresenceGuard.ef_locs f) as [[|x xs]|]; simpl; try reflexivity.
  destruct (PresenceGuard.ef_encs f) as [[|e es]|] eqn:E; simpl; rewrite ?E; reflexivity.
Qed.

Lemma first_encoding_usable_length (fs : list (@PresenceGuard.EnrollFile Loc Enc)) :
  List.length (flat_map first_encoding (filter StartupFacts.usable fs)) =
  List.length (filter StartupFacts.usable fs).
Proof.
  induction fs as [|f fs IH]; [reflexivity|]; simpl.
  destruct (StartupFacts.usable f) eqn:Hu; [|exact IH].
  unfold StartupFacts.usable in Hu; unfold first_encoding; simpl.
  destruct (PresenceGuard.ef_load_ok f); [|discriminate].
  destruct (PresenceGuard.ef_locs f) as [[|x xs]|]; try discriminate.
  destruct (PresenceGuard.ef_encs f) as [[|e es]|] eqn:E; try discriminate.
  simpl in *; rewrite ?E; simpl; f_equal; exact IH.
Qed.

Lemma filter_yields (entries : list (@PresenceGuard.EnrollFile Loc Enc)) :
  filter StartupFacts.yields_encoding entries =
  filter StartupFacts.usable (filter PresenceGuard.ef_is_file entries).
Proof.
  induction entries as [|f fs IH]; [reflexivity|]; simpl.
  unfold StartupFacts.yields_encoding at 1.
  destruct (PresenceGuard.ef_is_file f); simpl; [|exact IH].
  destruct (StartupFacts.usable f); simpl; rewrite IH; reflexivity.
Qed.

(** presence_guard.py enrolls, in directory order, the first encoding of
    every regular file that loads with a face and an encoding: one per
    such file, and [None] when there is none. *)
Theorem pg_enrolled_set (entries : list (@PresenceGuard.EnrollFile Loc Enc)) :
  snd (PresenceGuard.load_known_encodings entries) =
    match flat_map first_encoding (filter StartupFacts.yields_encoding entries) with
    | [] => None
    | es => Some es
    end /\
  List.length (flat_map first_encoding (filter StartupFacts.yields_encoding entries)) =
  List.length (filter StartupFacts.yields_encoding entries).
Proof.
  rewrite filter_yields; split; [|apply first_encoding_usable_length].
  unfold PresenceGuard.load_known_encodings.
  pose proof (pg_load_files_encodings (filter PresenceGuard.ef_is_file entries)) as H.
  destruct (PresenceGuard.load_files (filter PresenceGuard.ef_is_file entries)) as [l es].
  simpl in H |- *; rewrite H; destruct (flat_map _ _); reflexivity.
Qed.

Lemma fd_load_cons (f : @PresenceGuard.EnrollFile Loc Enc) (fs : list PresenceGuard.EnrollFile) :
  FaceDetectStartup.load_known_encodings (f :: fs) =
    (fst (FaceDetectStartup.load_one f) ++ fst (FaceDetectStartup.load_known_encodings fs),
     snd (FaceDetectStartup.load_one f) ++ snd (FaceDetectStartup.load_known_encodings fs)).
Proof.
  simpl; destruct (FaceDetectStartup.load_one f), (FaceDetectStartup.load_known_encodings fs);
    reflexivity.
Qed.

(** face_detect.py enrolls the same encodings from every entry, regular
    file or not, and logs every entry it skips; presence_guard.py skips
    an image whose face gives no encoding without any log line. *)
Theorem enrollment_skips_logged (fs : list (@PresenceGuard.EnrollFile Loc Enc)) :
  snd (FaceDetectStartup.load_known_encodings fs) =
    flat_map first_encoding (filter StartupFacts.usable fs) /\
  (forall f, In f fs -> StartupFacts.usable f = false ->
     In (Log (String.append "No face found in enroll image: " (PresenceGuard.ef_path f)))
        (fst (FaceDetectStartup.load_known_encodings fs)) \/
     In (Log (String.append "Error loading " (PresenceGuard.ef_path f)))
        (fst (FaceDetectStartup.load_known_encodings fs))) /\
  (forall f, PresenceGuard.ef_load_ok f = true ->
     (exists x xs, PresenceGuard.ef_locs f = Ok (x :: xs)) ->
     PresenceGuard.ef_encs f = Ok [] ->
     @PresenceGuard.load_one Loc Enc f = ([], [])).
Proof.
  split; [|split].
  - induction fs as [|f fs IH]; [reflexivity|].
    rewrite fd_load_cons; simpl; rewrite IH.
    unfold FaceDetectStartup.load_one, StartupFacts.usable, first_encoding.
    destruct (PresenceGuard.ef_load_ok f); simpl; [|reflexivity].
    destruct (PresenceGuard.ef_locs f) as [[|x xs]|]; simpl; try reflexivity.
    destruct (PresenceGuard.ef_encs f) as [[|e es]|] eqn:E; simpl; rewrite ?E; reflexivity.
  - induction fs as [|f fs IH]; [intros f []|].
    intros f' [-> | Hin] Hu; rewrite fd_load_cons; simpl.
    + unfold StartupFacts.usable in Hu; unfold FaceDetectStartup.load_one.
      destruct (PresenceGuard.ef_load_ok f'); simpl in *; [|right; left; reflexivity].
      destruct (PresenceGuard.ef_locs f') as [[|x xs]|]; simpl in *;
        [left; left; reflexivity | | right; left; reflexivity].
      destruct (PresenceGuard.ef_encs f') as [[|e es]|]; simpl in *;
        [right; left; reflexivity | discriminate | right; left; reflexivity].
    + destruct (IH f' Hin Hu) as [H | H]; [left | right]; apply in_or_app; right; exact H.
  - intros f Hl (x & xs & Hx) He; unfold PresenceGuard.load_one.
    rewrite Hl, Hx, He; reflexivity.
Qed.

(** face_detect.py's startup exits with status 1 exactly when the
    directory is missing, nothing is enrolled, or device 0 does not open;
    it logs "Starting presence_guard" before it tries the camera. *)
Theorem fd_startup_exit_conditions (dir_exists : bool)
    (entries : list (@PresenceGuard.EnrollFile Loc Enc)) (opens : Z -> bool) :
  ((exists l c, FaceDetectStartup.startup dir_exists entries opens = (l, PresenceGuard.Exit c)) <->
   (dir_exists = false \/ snd (FaceDetectStartup.load_known_encodings entries) = [] \/
    opens 0%Z = false)) /\
  (forall l c, FaceDetectStartup.startup dir_exists entries opens = (l, PresenceGuard.Exit c) ->
     c = 1%Z) /\
  (forall l k idx, FaceDetectStartup.startup dir_exists entries opens =
                     (l, PresenceGuard.EnterLoop k idx) ->
     k = snd (FaceDetectStartup.load_known_encodings entries) /\ k <> [] /\ idx = 0%Z) /\
  (dir_exists = true -> snd (FaceDetectStartup.load_known_encodings entries) <> [] ->
   opens 0%Z = false ->
   FaceDetectStartup.startup dir_exists entries opens =
     (fst (FaceDetectStartup.load_known_encodings entries) ++
        [Log "Starting presence_guard"; Log "Cannot open webcam. Exiting."],
      PresenceGuard.Exit 1)).
Proof.
  unfold FaceDetectStartup.startup, FaceDetectStartup.VIDEO_DEVICE.
  destruct (FaceDetectStartup.load_known_encodings entries) as [l0 ks]; simpl.
  split; [|split; [|split]].
  - destruct dir_exists; simpl.
    + destruct ks as [|k0 ks].
      * split; [intros _; right; left; reflexivity | intros _; eexists; eexists; reflexivity].
      * destruct (opens 0%Z).
        -- split; [intros (l' & c & E); discriminate|].
           intros [H | [H | H]]; discriminate.
        -- split; [intros _; right; right; reflexivity
                  | intros _; eexists; eexists; reflexivity].
    + split; [intros _; left; reflexivity | intros _; eexists; eexists; reflexivity].
  - intros l' c; destruct dir_exists; simpl; [|intros E; inversion E; reflexivity].
    destruct ks; [intros E; inversion E; reflexivity|].
    destruct (opens 0%Z); intros E; inversion E; reflexivity.
  - intros l' k idx; destruct dir_exists; simpl; [|discriminate].
    destruct ks as [|k0 ks]; [discriminate|].
    destruct (opens 0%Z); intros E; inversion E; subst; split; [reflexivity|split; [discriminate|reflexivity]].
  - intros -> Hne Ho; simpl; destruct ks; [congruence|]; rewrite Ho; reflexivity.
Qed.

(** *** face_detect.py's [last_lock_time] *)

Lemma fd_step_state_irrelevant (cfg : FaceDetect.Config) (known : list Enc)
    (s1 s2 : FaceDetect.State) (o : @FaceDetect.Obs Loc Enc) :
  fst (FaceDetect.step euclid cfg known s1 o) = fst (FaceDetect.step euclid cfg known s2 o) /\
  (snd (FaceDetect.step euclid cfg known s1 o) = Crashed <->
   snd (FaceDetect.step euclid cfg known s2 o) = Crashed).
Proof.
  unfold FaceDetect.step.
  destruct (FaceDetect.frame_ok o); simpl; [|split; [reflexivity | split; discriminate]].
  destruct (FaceDetect.locs o); simpl; [|tauto].
  destruct (FaceDetect.encs o) as [fe|]; simpl; [|tauto].
  destruct (Nat.eqb (List.length fe) 1); simpl; [|split; [reflexivity | split; discriminate]].
  destruct fe as [|e fe]; simpl; [tauto|].
  destruct (FaceDetect.best_distance euclid known e); simpl; [|tauto].
  destruct (Qle_bool _ _); simpl; split; try reflexivity; split; discriminate.
Qed.

(** [last_lock_time] is written but never read: the trace of a run of
    face_detect.py does not depend on the state it starts from. *)
Theorem fd_last_lock_time_unused (cfg : FaceDetect.Config) (known : list Enc)
    (os : list (@FaceDetect.Obs Loc Enc)) (s1 s2 : FaceDetect.State) :
  fst (FaceDetect.loop euclid cfg known s1 os) = fst (FaceDetect.loop euclid cfg known s2 os).
Proof.
  revert s1 s2; induction os as [|o os IH]; intros s1 s2; simpl; [reflexivity|].
  destruct (fd_step_state_irrelevant cfg known s1 s2 o) as [Hf Hc].
  destruct (FaceDetect.step euclid cfg known s1 o) as [e1 [t1|]],
           (FaceDetect.step euclid cfg known s2 o) as [e2 [t2|]]; simpl in *;
    subst; try (destruct Hc as [H1 H2]; discriminate (H2 eq_refl) || discriminate (H1 eq_refl)).
  - specialize (IH t1 t2).
    destruct (FaceDetect.loop euclid cfg known t1 os), (FaceDetect.loop euclid cfg known t2 os).
    simpl in *; subst; reflexivity.
  - reflexivity.
Qed.

(** In face_detect.py every frame is encoded, so an exception of the
    encoder ends the loop whatever the number of faces. *)
Theorem fd_encoder_exception_ends_loop (cfg : FaceDetect.Config) (known : list Enc)
    (s : FaceDetect.State) (o : @FaceDetect.Obs Loc Enc) (fl : list Loc) os :
  FaceDetect.frame_ok o = true -> FaceDetect.locs o = Ok fl -> FaceDetect.encs o = Raise ->
  FaceDetect.loop euclid cfg known s (o :: os) =
    ([Encode; Log "presence_guard crashed: {e}"; Release], None).
Proof.
  intros Hf Hl He; simpl; unfold FaceDetect.step; rewrite Hf, Hl, He; reflexivity.
Qed.

End Loops.
End Extras.

Module ExtraWitnesses.
Import Witnesses.

Definition config_bt : PresenceGuard.Config := {|
  PresenceGuard.ALLOWED_TOLERANCE := 65 # 100;
  PresenceGuard.CHECK_INTERVAL := 35 # 100;
  PresenceGuard.LOCK_COOLDOWN := 4;
  PresenceGuard.ABSENCE_TIMEOUT := 6;
  PresenceGuard.USE_BLUETOOTH := true;
  PresenceGuard.VIDEO_DEVICE := None;
  PresenceGuard.USE_CNN_FALLBACK := true;
  PresenceGuard.ENCODING_EVERY_N := 1
|}.

Definition config_every_0 : PresenceGuard.Config := {|
  PresenceGuard.ALLOWED_TOLERANCE := 65 # 100;
  PresenceGuard.CHECK_INTERVAL := 35 # 100;
  PresenceGuard.LOCK_COOLDOWN := 4;
  PresenceGuard.ABSENCE_TIMEOUT := 6;
  PresenceGuard.USE_BLUETOOTH := false;
  PresenceGuard.VIDEO_DEVICE := None;
  PresenceGuard.USE_CNN_FALLBACK := true;
  PresenceGuard.ENCODING_EVERY_N := 0
|}.

(** A frame taken while the phone is away. *)
Definition phone_away : @PresenceGuard.Obs unit Z := {|
  PresenceGuard.phone_present := false; PresenceGuard.frame_ok := true;
  PresenceGuard.hog_locs := Ok [tt]; PresenceGuard.cnn_locs := Ok [];
  PresenceGuard.encs := Ok [0%Z]; PresenceGuard.now := 7 |}.

Definition pg_no_frame : @PresenceGuard.Obs unit Z := {|
  PresenceGuard.phone_present := true; PresenceGuard.frame_ok := false;
  PresenceGuard.hog_locs := Ok [tt]; PresenceGuard.cnn_locs := Ok [];
  PresenceGuard.encs := Ok [0%Z]; PresenceGuard.now := 7 |}.

Definition fd_no_frame : @FaceDetect.Obs unit Z := {|
  FaceDetect.frame_ok := false; FaceDetect.locs := Ok [tt];
  FaceDetect.encs := Ok [0%Z]; FaceDetect.now := 3 |}.


Lemma bluetooth_absent_run_locks_witness :
  exists evs,
    PresenceGuard.loop dist_z config_bt known_z (PresenceGuard.init_state 0)
      [phone_away; phone_away] = (evs, Some (PresenceGuard.init_state 0)) /\
    count_lock evs = 2%nat /\ Extras.no_encode evs = true /\
    sleeps evs = repeat 4 2.
Proof.
  apply (Extras.bluetooth_absent_run_locks dist_z config_bt known_z
           (PresenceGuard.init_state 0) [phone_away; phone_away]).
  - reflexivity.
  - intros o [<- | [<- | []]]; reflexivity.
Defined.

Lemma pg_frame_failures_never_lock_witness :
  exists evs,
    PresenceGuard.loop dist_z PresenceGuard.config known_z (PresenceGuard.init_state 0)
      [pg_no_frame; pg_no_frame] = (evs, Some (PresenceGuard.init_state 0)) /\
    count_lock evs = 0%nat /\ sleeps evs = repeat (35 # 100) 2.
Proof.
  apply (Extras.pg_frame_failures_never_lock dist_z PresenceGuard.config known_z
           (PresenceGuard.init_state 0) [pg_no_frame; pg_no_frame]).
  intros o [<- | [<- | []]]; split; reflexivity.
Defined.

Lemma fd_frame_failures_never_lock_witness :
  exists evs,
    FaceDetect.loop dist_z FaceDetect.config known_z FaceDetect.init_state
      [fd_no_frame] = (evs, Some FaceDetect.init_state) /\
    count_lock evs = 0%nat /\ sleeps evs = repeat 2 1.
Proof.
  apply (Extras.fd_frame_failures_never_lock dist_z FaceDetect.config known_z
           FaceDetect.init_state [fd_no_frame]).
  intros o [<- | []]; reflexivity.
Defined.

Lemma tolerance_monotone_witness :
  exists evs s',
    PresenceGuard.step dist_z PresenceGuard.config known_z (PresenceGuard.init_state 0)
      (pg_obs (Ok [tt]) (Ok [0%Z]) 7) = (evs, Next s') /\
    PresenceGuard.step dist_z (Extras.with_tolerance PresenceGuard.config 1) known_z
      (PresenceGuard.init_state 0) (pg_obs (Ok [tt]) (Ok [0%Z]) 7) = (evs, Next s').
Proof.
  do 2 eexists; split; [reflexivity|].
  apply (Extras.tolerance_monotone dist_z PresenceGuard.config 1 known_z).
  - unfold Qle; simpl; lia.
  - reflexivity.
  - reflexivity.
Defined.


Lemma absence_measured_from_authorization_witness :
  exists evs1 s1,
    PresenceGuard.step dist_z PresenceGuard.config known_z (PresenceGuard.init_state 0)
      (pg_obs (Ok [tt]) (Ok [0%Z]) 7) = (evs1, Next s1) /\
    (In LockCall (fst (PresenceGuard.step dist_z PresenceGuard.config known_z s1
                         (pg_obs (Ok []) (Ok []) 7000007))) <->
     (6 * 1000000 <= 7000007 - 7)%Z).
Proof.
  do 2 eexists; split; [reflexivity|].
  eapply (Extras.absence_measured_from_authorization dist_z PresenceGuard.config known_z
           (PresenceGuard.init_state 0) (pg_obs (Ok [tt]) (Ok [0%Z]) 7)
           (pg_obs (Ok []) (Ok []) 7000007) tt).
  - split; [reflexivity | split; reflexivity].
  - reflexivity.
  - reflexivity.
  - split; [reflexivity | split; reflexivity].
Defined.

Lemma cnn_result_unused_witness :
  PresenceGuard.step dist_z PresenceGuard.config known_z (PresenceGuard.init_state 0)
    (Extras.with_cnn (pg_obs (Ok [tt]) (Ok [0%Z]) 7) Raise) =
  PresenceGuard.step dist_z PresenceGuard.config known_z (PresenceGuard.init_state 0)
    (pg_obs (Ok [tt]) (Ok [0%Z]) 7).
Proof.
  apply (Extras.cnn_result_unused dist_z PresenceGuard.config known_z).
  left; discriminate.
Defined.


Lemma zero_sampling_interval_crashes_witness :
  PresenceGuard.loop dist_z config_every_0 known_z (PresenceGuard.init_state 0)
    [pg_obs (Ok [tt]) (Ok [0%Z]) 7] =
  ([Log "Detected {n_faces} face(s)"; Log "presence_guard crashed: {e}"; Release], None).
Proof.
  apply (Extras.zero_sampling_interval_crashes dist_z config_every_0 known_z
           (PresenceGuard.init_state 0) (pg_obs (Ok [tt]) (Ok [0%Z]) 7) tt []).
  - split; [reflexivity | split; reflexivity].
  - reflexivity.
Defined.


Lemma fd_encoder_exception_ends_loop_witness :
  FaceDetect.loop dist_z FaceDetect.config known_z FaceDetect.init_state
    [fd_obs Raise; fd_obs (Ok [])] =
  ([Encode; Log "presence_guard crashed: {e}"; Release], None).
Proof.
  apply (Extras.fd_encoder_exception_ends_loop dist_z FaceDetect.config known_z
           FaceDetect.init_state (fd_obs Raise) []).
  - reflexivity.
  - reflexivity.
  - reflexivity.
Defined.

End ExtraWitnesses.
